(** * IntelliDoc: the session-scoped retrieval engine

    A shallow embedding of [backend/app/services/chatbot.py]
    (class [DocumentChatbot]), of the summarizer of
    [backend/app/services/summarizer2.py] and of the handlers of
    [backend/app/api/endpoints/chat.py].

    Conventions of the embedding.
    - A Python [str] is a [string]; its characters are the code points
      below 256.
    - A Python [int] is a [Z]; [len] is [Z.of_nat (length _)].
    - The sentence encoder, the cosine similarity, the clock, the remote
      language model and the JSON parser are collaborators of the code:
      they are section variables, and a collaborator that raises returns
      [None].
    - A similarity score is a [Z]: ranking only compares scores.
    - The session store [self.sessions] is a [gmap string session] that is
      passed in and returned. *)

From Stdlib Require Import ZArith Ascii String List Lia Sorted.
From stdpp Require Import base list gmap strings sorting.

Local Open Scope Z_scope.

(** ** Python string primitives *)

Module Py.

(** [str.isspace] on one character, which is also the class [\s] of [re]
    on a [str] pattern: TAB..CR, FS..US, SPACE, NEL and NBSP. *)
Definition is_space (c : ascii) : bool :=
  let n := nat_of_ascii c in
  ((9 <=? n) && (n <=? 13))%nat || ((28 <=? n) && (n <=? 32))%nat
  || (n =? 133)%nat || (n =? 160)%nat.

(** The character class [[.!?]]. *)
Definition is_terminal (c : ascii) : bool :=
  let n := nat_of_ascii c in
  (n =? 46)%nat || (n =? 33)%nat || (n =? 63)%nat.

Definition snoc (s : string) (c : ascii) : string := s +:+ String c "".

Definition nonempty (s : string) : bool :=
  match s with "" => false | String _ _ => true end.

(** [s.split()]: the maximal runs of non-whitespace characters. [cur] is
    the word being read. *)
Fixpoint split_ws_from (cur : string) (s : string) : list string :=
  match s with
  | "" => if nonempty cur then [cur] else []
  | String c s' =>
      if is_space c
      then (if nonempty cur then cur :: split_ws_from "" s'
            else split_ws_from "" s')
      else split_ws_from (snoc cur c) s'
  end.

Definition split_ws (s : string) : list string := split_ws_from "" s.

(** [sep.join(l)]. *)
Fixpoint join (sep : string) (l : list string) : string :=
  match l with
  | [] => ""
  | [x] => x
  | x :: l' => x +:+ sep +:+ join sep l'
  end.

(** Where the scanner of [re.split(r'(?<=[.!?])\s+', text)] stands: right
    after a terminal character, after any other character (or at the
    start), or inside a separator that has matched. *)
Inductive scan := AfterTerminal | AfterOther | InSeparator.

Definition after (c : ascii) : scan :=
  if is_terminal c then AfterTerminal else AfterOther.

(** [re.split(r'(?<=[.!?])\s+', text)]: a separator is a maximal run of
    whitespace that starts right after [.], [!] or [?]. [cur] is the piece
    being read; the last piece is always produced, also when it is
    empty. *)
Fixpoint split_sentences_from (cur : string) (st : scan) (s : string)
  : list string :=
  match s with
  | "" => [cur]
  | String c s' =>
      match st with
      | InSeparator =>
          if is_space c then split_sentences_from "" InSeparator s'
          else split_sentences_from (String c "") (after c) s'
      | AfterTerminal =>
          if is_space c then cur :: split_sentences_from "" InSeparator s'
          else split_sentences_from (snoc cur c) (after c) s'
      | AfterOther => split_sentences_from (snoc cur c) (after c) s'
      end
  end.

Definition split_sentences (text : string) : list string :=
  split_sentences_from "" AfterOther text.

(** [s.lstrip(...)] and [s.rstrip(...)], with the set of stripped
    characters as a predicate. *)
Fixpoint lstrip_by (p : ascii -> bool) (s : string) : string :=
  match s with
  | "" => ""
  | String c s' => if p c then lstrip_by p s' else s
  end.

Fixpoint rstrip_by (p : ascii -> bool) (s : string) : string :=
  match s with
  | "" => ""
  | String c s' =>
      let r := rstrip_by p s' in
      if nonempty r then String c r
      else if p c then "" else String c ""
  end.

(** [s.strip()] *)
Definition strip (s : string) : string :=
  rstrip_by is_space (lstrip_by is_space s).

Fixpoint mem_char (c : ascii) (chars : string) : bool :=
  match chars with
  | "" => false
  | String d chars' => Ascii.eqb c d || mem_char c chars'
  end.

(** [s.lstrip(chars)], [s.rstrip(chars)] *)
Definition lstrip_chars (chars s : string) : string :=
  lstrip_by (fun c => mem_char c chars) s.
Definition rstrip_chars (chars s : string) : string :=
  rstrip_by (fun c => mem_char c chars) s.

(** [s.lower()] on the code points below 256: A..Z and the accented
    capitals 192..222 (but 215, the multiplication sign) move up by 32. *)
Definition lower_char (c : ascii) : ascii :=
  let n := nat_of_ascii c in
  if ((65 <=? n) && (n <=? 90))%nat
     || ((192 <=? n) && (n <=? 222) && negb (n =? 215))%nat
  then ascii_of_nat (n + 32) else c.

Fixpoint lower (s : string) : string :=
  match s with
  | "" => ""
  | String c s' => String (lower_char c) (lower s')
  end.

(** [s.split(sep)] for a one-character separator: empty pieces are kept. *)
Fixpoint split_on_from (sep : ascii) (cur : string) (s : string)
  : list string :=
  match s with
  | "" => [cur]
  | String c s' =>
      if Ascii.eqb c sep then cur :: split_on_from sep "" s'
      else split_on_from sep (snoc cur c) s'
  end.

Definition split_on (sep : ascii) (s : string) : list string :=
  split_on_from sep "" s.

(** [s[:n]] for a constant [n >= 0]. *)
Definition prefix (n : nat) (s : string) : string := String.substring 0 n s.

(** [pat in s] *)
Fixpoint contains (pat s : string) : bool :=
  String.prefix pat s
  || match s with "" => false | String _ s' => contains pat s' end.

(** A stable sort by an integer key, ascending: [l.sort(key=...)],
    [sorted(l, key=...)]. An element is put before the first later
    element whose key is not smaller. *)
Fixpoint insert_asc {A} (key : A -> Z) (x : A) (l : list A) : list A :=
  match l with
  | [] => [x]
  | y :: l' => if key x <=? key y then x :: l else y :: insert_asc key x l'
  end.

Definition sort_asc {A} (key : A -> Z) (l : list A) : list A :=
  foldr (insert_asc key) [] l.

(** [sorted(l, key=..., reverse=True)]: descending, and still stable:
    elements with equal keys keep their order. *)
Fixpoint insert_desc {A} (key : A -> Z) (x : A) (l : list A) : list A :=
  match l with
  | [] => [x]
  | y :: l' => if key y <=? key x then x :: l else y :: insert_desc key x l'
  end.

Definition sort_desc {A} (key : A -> Z) (l : list A) : list A :=
  foldr (insert_desc key) [] l.

(** [l[i:]] for a list and an index [0 <= i] (the only use in the code is
    behind [max(0, _)]). *)
Definition slice_from {A} (i : Z) (l : list A) : list A :=
  drop (Z.to_nat i) l.

(** [l[-k:]]: the last [k] elements for [k > 0]; [-0] is [0], so [k = 0]
    gives the whole list; for [k < 0] the index [-k] is positive and the
    first [-k] elements are dropped. *)
Definition slice_last {A} (k : Z) (l : list A) : list A :=
  if 0 <? k then drop (length l - Z.to_nat k)%nat l
  else drop (Z.to_nat (- k)) l.

(** [l[:n]]: the first [n] elements; for [n < 0] all but the last [-n]. *)
Definition slice_to {A} (n : Z) (l : list A) : list A :=
  if 0 <=? n then take (Z.to_nat n) l
  else take (length l - Z.to_nat (- n))%nat l.

Definition len {A} (l : list A) : Z := Z.of_nat (length l).

End Py.

(** ** The chunker: [DocumentChatbot.chunk_document] *)

Definition word_count (s : string) : Z := Py.len (Py.split_ws s).

(** [sum(len(s.split()) for s in current_chunk)] *)
Definition words_of (sentences : list string) : Z :=
  foldr (fun s acc => word_count s + acc) 0 sentences.

Definition is_nil {A} (l : list A) : bool :=
  match l with [] => true | _ => false end.

Module Chunker.

(** The loop state: [chunks], [current_chunk], [current_length]. *)
Record state := State {
  chunks : list string;
  current_chunk : list string;
  current_length : Z
}.

(** The test [current_length + sentence_length > chunk_size and
    current_chunk]. *)
Definition closes (chunk_size : Z) (st : state) (sentence : string) : bool :=
  (chunk_size <? current_length st + word_count sentence)
  && negb (is_nil (current_chunk st)).

(** One iteration of [for i, sentence in enumerate(sentences)]. *)
Definition step (chunk_size chunk_overlap_sentences : Z)
    (st : state) (sentence : string) : state :=
  let sentence_length := word_count sentence in
  if closes chunk_size st sentence
  then
    let overlap_start_index :=
      Z.max 0 (Py.len (current_chunk st) - chunk_overlap_sentences) in
    let kept := Py.slice_from overlap_start_index (current_chunk st) in
    State (chunks st ++ [Py.join " " (current_chunk st)])
          (kept ++ [sentence])
          (words_of kept + sentence_length)
  else
    State (chunks st) (current_chunk st ++ [sentence])
          (current_length st + sentence_length).

Definition init : state := State [] [] 0.

(** The same loop, recording every chunk as the list of its sentences
    (what [current_chunk] holds when the chunk is joined): the strings of
    [chunks] are the joins of these groups. *)
Definition group_step (chunk_size chunk_overlap_sentences : Z)
    (gst : list (list string) * state) (sentence : string)
  : list (list string) * state :=
  (if closes chunk_size gst.2 sentence
   then gst.1 ++ [current_chunk gst.2] else gst.1,
   step chunk_size chunk_overlap_sentences gst.2 sentence).

End Chunker.

(** The part of [chunk_document] after the sentence split. *)
Definition chunk_sentences (sentences : list string)
    (chunk_size chunk_overlap_sentences : Z) : list string :=
  let st := fold_left (Chunker.step chunk_size chunk_overlap_sentences)
                      sentences Chunker.init in
  if is_nil (Chunker.current_chunk st) then Chunker.chunks st
  else Chunker.chunks st ++ [Py.join " " (Chunker.current_chunk st)].

Definition chunk_document (text : string)
    (chunk_size chunk_overlap_sentences : Z) : list string :=
  chunk_sentences (Py.split_sentences text) chunk_size chunk_overlap_sentences.

(** [chunk_document(text)] with the defaults [chunk_size=200],
    [chunk_overlap_sentences=2]. *)
Definition chunk_document_default (text : string) : list string :=
  chunk_document text 200 2.

(** The chunks of [chunk_sentences] as groups of sentences. *)
Definition chunk_groups (sentences : list string)
    (chunk_size chunk_overlap_sentences : Z) : list (list string) :=
  let gst := fold_left (Chunker.group_step chunk_size chunk_overlap_sentences)
                       sentences ([], Chunker.init) in
  if is_nil (Chunker.current_chunk gst.2) then gst.1
  else gst.1 ++ [Chunker.current_chunk gst.2].

(** How many sentences a chunk takes over from the chunk [prev] closed
    before it: [len(prev) - max(0, len(prev) - chunk_overlap_sentences)]. *)
Definition overlap_count (chunk_overlap_sentences : Z) (prev : list string)
  : nat :=
  (length prev - Z.to_nat (Z.max 0 (Py.len prev - chunk_overlap_sentences)))%nat.

(** Removing from every chunk the sentences taken over from the chunk
    before it ([prev]; the first chunk has none), and concatenating. *)
Fixpoint deoverlap (chunk_overlap_sentences : Z) (prev : list string)
    (gs : list (list string)) : list string :=
  match gs with
  | [] => []
  | g :: gs' =>
      drop (overlap_count chunk_overlap_sentences prev) g
      ++ deoverlap chunk_overlap_sentences g gs'
  end.

(** ** Ranking: [np.argsort(similarities)[-top_k:][::-1]] *)

(** [np.argsort(similarities)]: the indices in ascending order of score.
    The default kind of NumPy's sort is not stable, so the code does not
    fix the order among equal scores. [argsort] is the result that has
    equal scores in the order of their indices, one of the results that
    [sorts] admits; what is said of the ranking is proved of every such
    result. *)
Definition argsort (similarities : list Z) : list nat :=
  Py.sort_asc (fun i => nth i similarities 0)
              (seq 0 (length similarities)).

Definition top_indices (similarities : list Z) (top_k : Z) : list nat :=
  reverse (Py.slice_last top_k (argsort similarities)).

(** ** The local answer: [DocumentChatbot.generate_answer] *)

Definition fallback_answer : string :=
  "I couldn't find a specific answer to your question in the document. Could you rephrase or ask something else?".

(** [set(s.lower().split())] *)
Definition word_set (s : string) : gset string :=
  list_to_set (Py.split_ws (Py.lower s)).

(** [len(question_words.intersection(sentence_words))] *)
Definition overlap (question_words : gset string) (sentence : string) : Z :=
  Z.of_nat (size (question_words ∩ word_set sentence)).

(** The list [scored_sentences] before it is sorted. *)
Definition scored_sentences (question context : string)
  : list (Z * string) :=
  let question_words := word_set question in
  let context_sentences := Py.split_sentences context in
  omap (fun sentence =>
          let o := overlap question_words sentence in
          if 0 <? o then Some (o, sentence) else None)
       context_sentences.

(** [conversation_history] is accepted and never read. *)
Definition generate_answer {turn : Type} (question context : string)
    (conversation_history : option (list turn)) : string :=
  let scored := scored_sentences question context in
  if is_nil scored then fallback_answer
  else
    let sorted := Py.sort_desc fst scored in
    let answer_sentences := map snd (Py.slice_to 2 sorted) in
    Py.strip (Py.join " " answer_sentences).

(** ** Exceptions *)

(** The outcome of code that may raise: [Raise msg] carries [str(e)]. *)
Inductive outcome (A : Type) : Type :=
  | Ok (a : A)
  | Raise (msg : string).
Arguments Ok {A} a.
Arguments Raise {A} msg.

#[global] Instance outcome_ret : MRet outcome := fun A a => Ok a.
#[global] Instance outcome_bind : MBind outcome := fun A B k m =>
  match m with
  | Ok a => k a
  | Raise msg => Raise msg
  end.

(** [l[i]] for [0 <= i], raising [IndexError] out of range. *)
Definition index {A} (l : list A) (i : nat) : outcome A :=
  match l !! i with
  | Some a => Ok a
  | None => Raise "list index out of range"
  end.

Fixpoint traverse {A B} (f : A -> outcome B) (l : list A)
  : outcome (list B) :=
  match l with
  | [] => Ok []
  | a :: l' => b ← f a; bs ← traverse f l'; Ok (b :: bs)
  end.

(** ** Sessions *)

(** A Conversation Turn: [{"question", "answer", "timestamp"}]. *)
Record turn := Turn {
  question : string;
  answer : string;
  timestamp : string
}.

(** The dict stored under a session id. *)
Record session (vec : Type) := Session {
  document_text : string;
  chunks : list string;
  chunk_embeddings : list vec;
  metadata : gmap string string;
  conversation_history : list turn;
  created_at : string
}.
Arguments Session {vec}.
Arguments document_text {vec}.
Arguments chunks {vec}.
Arguments chunk_embeddings {vec}.
Arguments metadata {vec}.
Arguments conversation_history {vec}.
Arguments created_at {vec}.

(** A dict [{"error": msg}] or a dict without the key ["error"]. *)
Inductive reply (A : Type) : Type :=
  | Success (a : A)
  | Error (error : string).
Arguments Success {A} a.
Arguments Error {A} error.

(** [{"success": True, "session_id", "chunks_count"}] *)
Record created := Created {
  created_session_id : string;
  chunks_count : Z
}.

(** What the confidence of an answer can be: the rounded mean of the
    similarities (local path), or whatever the remote model put under
    ["confidence_score"], [None] when the key is missing. *)
Inductive confidence :=
  | Measured (score : Z)
  | Reported (value : option string).

(** [{"answer", "confidence_score", "relevant_context", "sources"}];
    the remote path has no ["sources"]. *)
Record answered := Answered {
  answer_text : string;
  confidence_score : confidence;
  relevant_context : string;
  sources : option (list string)
}.

(** [sklearn]'s [cosine_similarity(X, Y)] over the similarity [cosine] of
    two vectors: one row per row of [X]; an input without rows is
    refused. The text of the refusal is abridged: sklearn's also names
    the shape of the array and the checking function. The other refusals
    of sklearn (values that are not finite, arrays of other dimensions)
    have no counterpart for the vectors of the model. *)
Definition cosine_similarity {vec : Type} (cosine : vec -> vec -> Z)
    (X Y : list vec) : outcome (list (list Z)) :=
  if is_nil X || is_nil Y
  then Raise "Found array with 0 sample(s) while a minimum of 1 is required."
  else Ok (map (fun x => map (cosine x) Y) X).

Section Chatbot.

(** The embedding vectors and the collaborators of [DocumentChatbot]. *)
Context {vec : Type}.
(** [self.sentence_model.encode(texts)] *)
Variable encode : list string -> outcome (list vec).
(** One entry of the similarity matrix. *)
Variable cosine : vec -> vec -> Z.
(** [float(np.mean(scores))] and [round(_, 3)], on the scale of scores. *)
Variable mean : list Z -> Z.
Variable round3 : Z -> Z.

Abbreviation store := (gmap string (session vec)).

(** [context[:500] + "..." if len(context) > 500 else context] *)
Definition preview (context : string) : string :=
  if (500 <? String.length context)%nat
  then Py.prefix 500 context +:+ "..." else context.

Definition find_relevant_context (question : string)
    (document_chunks : list string) (top_k : Z)
  : outcome (string * Z * list string) :=
  question_embedding ← encode [question];
  chunk_embeddings ← encode document_chunks;
  matrix ← cosine_similarity cosine question_embedding chunk_embeddings;
  similarities ← index matrix 0;
  let top := top_indices similarities top_k in
  relevant_chunks ← traverse (index document_chunks) top;
  confidence_scores ← traverse (index similarities) top;
  let context := Py.join " " relevant_chunks in
  Ok (context, mean confidence_scores, relevant_chunks).

(** [create_session]; [now] is [datetime.now().isoformat()]. The body is
    one [try]: what raises is reported and the store is not touched. *)
Definition create_session (sessions : store) (session_id document_text : string)
    (metadata : option (gmap string string)) (now : string)
  : reply created * store :=
  let chunks := chunk_document_default document_text in
  match encode chunks with
  | Ok chunk_embeddings =>
      (Success (Created session_id (Py.len chunks)),
       <[session_id := Session document_text chunks chunk_embeddings
                               (default ∅ metadata) [] now]> sessions)
  | Raise msg => (Error ("Failed to create session: " +:+ msg), sessions)
  end.

(** The [try] block of [answer_from_session] up to the answer. *)
Definition retrieve (s : session vec) (question : string)
  : outcome answered :=
  question_embedding ← encode [question];
  matrix ← cosine_similarity cosine question_embedding (chunk_embeddings s);
  similarities ← index matrix 0;
  let top := top_indices similarities 3 in
  relevant_chunks ← traverse (index (chunks s)) top;
  let context := Py.join " " relevant_chunks in
  scores ← traverse (index similarities) top;
  let avg_confidence := mean scores in
  let answer :=
    generate_answer question context (Some (conversation_history s)) in
  Ok (Answered answer (Measured (round3 avg_confidence)) (preview context)
               (Some relevant_chunks)).

Definition append_turn (s : session vec) (t : turn) : session vec :=
  Session (document_text s) (chunks s) (chunk_embeddings s) (metadata s)
          (conversation_history s ++ [t]) (created_at s).

Definition answer_from_session (sessions : store) (session_id question : string)
    (now : string) : reply answered * store :=
  match sessions !! session_id with
  | None => (Error "Session not found. Please create a session first.", sessions)
  | Some s =>
      match retrieve s question with
      | Ok r =>
          (Success r,
           <[session_id := append_turn s (Turn question (answer_text r) now)]>
             sessions)
      | Raise msg =>
          (Error ("Failed to answer from session: " +:+ msg), sessions)
      end
  end.

Definition clear (s : session vec) : session vec :=
  Session (document_text s) (chunks s) (chunk_embeddings s) (metadata s)
          [] (created_at s).

(** [clear_history]: [{"success": True}] is [Success tt]. *)
Definition clear_history (sessions : store) (session_id : string)
  : reply unit * store :=
  match sessions !! session_id with
  | None => (Error "Session not found", sessions)
  | Some s => (Success tt, <[session_id := clear s]> sessions)
  end.

(** [delete_session] returns [{"success": b}]. *)
Definition delete_session (sessions : store) (session_id : string)
  : bool * store :=
  match sessions !! session_id with
  | Some _ => (true, delete session_id sessions)
  | None => (false, sessions)
  end.

End Chatbot.

(** ** The handler [ask_question] of [endpoints/chat.py] *)

Module Request.
(** [ChatQuestionRequest], after validation. *)
Record t := Make {
  session_id : string;
  question : string;
  language : string;
  use_llm : bool
}.
End Request.

Module Response.
(** [ChatResponse]; [processing_time], a measured duration, is left out. *)
Record t := Make {
  success : bool;
  session_id : string;
  question : string;
  answer : string;
  confidence_score : option confidence;
  relevant_context : option string;
  timestamp : string
}.
End Response.

(** A handler returns a response or raises [HTTPException]. *)
Inductive http (A : Type) : Type :=
  | Respond (a : A)
  | HTTPException (status_code : Z) (detail : string).
Arguments Respond {A} a.
Arguments HTTPException {A} status_code detail.

(** What [json.loads] returns, as far as the handler reads it: an object
    with its string ["answer"] and its ["confidence_score"] ([None] for a
    missing key), or a value of another type, which has no [get]. An
    object whose ["answer"] is not a string is not represented: the
    response models refuse it, and the handlers then answer with the
    status 500 without touching the store. *)
Inductive json :=
  | JObject (answer : option string) (confidence_score : option string)
  | JOther (type_name : string).

Section Ask.

Context {vec : Type}.
Variable encode : list string -> outcome (list vec).
Variable cosine : vec -> vec -> Z.
Variable mean : list Z -> Z.
Variable round3 : Z -> Z.
(** [llm_service.is_available()] *)
Variable is_available : bool.
(** [llm_service.chat_with_llm(document_context, question, language,
    conversation_history)] *)
Variable chat_with_llm :
  string -> string -> string -> list turn -> outcome string.
(** [json.loads]; [None] is [JSONDecodeError]. *)
Variable json_loads : string -> option json.

Abbreviation store := (gmap string (session vec)).

(** [s.strip().lstrip('```json').rstrip('```').strip()] *)
Definition clean_json (s : string) : string :=
  Py.strip (Py.rstrip_chars "```" (Py.lstrip_chars "```json" (Py.strip s))).

(** The branch [if request.use_llm and llm_service.is_available()], for a
    session that was found. It reads the session and returns the dict
    [result]; the outer [Raise] is an exception that reaches
    [except Exception]. *)
Definition llm_path (s : session vec) (request : Request.t)
  : outcome (reply answered) :=
  llm_response_json_str ←
    chat_with_llm (document_text s) (Request.question request)
                  (Request.language request) (conversation_history s);
  match json_loads (clean_json llm_response_json_str) with
  | Some (JObject a c) =>
      Ok (Success (Answered (default "Error: LLM returned no answer." a)
                            (Reported c)
                            (Py.prefix 500 (document_text s)) None))
  | Some (JOther ty) =>
      Raise ("'" +:+ ty +:+ "' object has no attribute 'get'")
  | None =>
      Ok (Error ("LLM failed to return a structured JSON response. Raw output: "
                 +:+ Py.prefix 200 llm_response_json_str))
  end.

(** From [if "error" in result] to the end of the [try]. *)
Definition respond (request : Request.t) (result : reply answered)
    (now : string) : http Response.t :=
  match result with
  | Error e =>
      if Py.contains "not found" (Py.lower e)
      then HTTPException 404
             "Session not found. Please upload a document first."
      else HTTPException 400 e
  | Success r =>
      Respond (Response.Make true (Request.session_id request)
                 (Request.question request) (answer_text r)
                 (Some (confidence_score r)) (Some (relevant_context r)) now)
  end.

(** [ask_question]; [now_answer] is the clock read by
    [answer_from_session], [now] the one read for the response. *)
Definition ask_question (sessions : store) (request : Request.t)
    (now_answer now : string) : http Response.t * store :=
  if Request.use_llm request && is_available then
    match sessions !! Request.session_id request with
    | None => (HTTPException 404 "Session not found", sessions)
    | Some s =>
        match llm_path s request with
        | Ok result => (respond request result now, sessions)
        | Raise msg =>
            (HTTPException 500 ("Failed to answer question: " +:+ msg),
             sessions)
        end
    end
  else
    let '(result, sessions') :=
      answer_from_session encode cosine mean round3 sessions
        (Request.session_id request) (Request.question request) now_answer in
    (respond request result now, sessions').

End Ask.

(** ** [HybridSummarizer.extractive_summarize] of [summarizer2.py] *)

Section Summarizer.

Context {vec : Type}.
(** [nltk.sent_tokenize] *)
Variable sent_tokenize : string -> outcome (list string).
(** [self.sentence_model.encode] of the summarizer *)
Variable encode : list string -> outcome (list vec).
Variable cosine : vec -> vec -> Z.
(** [nx.pagerank(nx_graph)] for the graph
    [nx.from_numpy_array(similarity_matrix)]: the score of every node, in
    the order of the nodes. Building the graph comes before the [try];
    it accepts every square matrix, and the matrix of
    [cosine_similarity(embeddings)] is square. *)
Variable pagerank : list (list Z) -> outcome (list Z).

(** The [except] branch of the tokenization:
    [[s.strip() + '.' for s in text.split('.') if s.strip()]] *)
Definition naive_sentences (text : string) : list string :=
  map (fun s => Py.strip s +:+ ".")
      (List.filter (fun s => Py.nonempty (Py.strip s)) (Py.split_on "." text)).

Definition tokenize (text : string) : list string :=
  match sent_tokenize text with
  | Ok sentences => sentences
  | Raise _ => naive_sentences text
  end.

(** The second [try] block: the sentences of the highest scores, in the
    order of the document. *)
Definition ranked (cleaned_sentences : list string)
    (similarity_matrix : list (list Z)) (num_sentences : Z)
  : outcome string :=
  scores ← pagerank similarity_matrix;
  keyed ← traverse (fun i => s ← index scores i; Ok (s, i))
                   (seq 0 (length cleaned_sentences));
  let top_indices :=
    Py.slice_to num_sentences (map snd (Py.sort_desc fst keyed)) in
  let top_indices := Py.sort_asc Z.of_nat top_indices in
  picked ← traverse (index cleaned_sentences) top_indices;
  Ok (Py.join " " picked).

Definition extractive_summarize (text : string) (num_sentences : Z)
  : outcome string :=
  let sentences := tokenize text in
  if Py.len sentences <=? num_sentences then Ok (Py.join " " sentences)
  else
    let cleaned_sentences :=
      map Py.strip (List.filter (fun s => 5 <? word_count s) sentences) in
    if Py.len cleaned_sentences <? 2
    then Ok (Py.join " " (Py.slice_to num_sentences sentences))
    else
      embeddings ← encode cleaned_sentences;
      similarity_matrix ← cosine_similarity cosine embeddings embeddings;
      match ranked cleaned_sentences similarity_matrix num_sentences with
      | Ok summary => Ok summary
      | Raise _ =>
          Ok (Py.join " " (Py.slice_to num_sentences cleaned_sentences))
      end.

End Summarizer.

(** * Specification predicates and sample data *)

(** A property of every chunk and the chunk before it. *)
Fixpoint chain (P : list string -> list string -> Prop)
    (prev : list string) (gs : list (list string)) : Prop :=
  match gs with
  | [] => True
  | g :: gs' => P prev g /\ chain P g gs'
  end.

Definition last_group (prev : list string) (gs : list (list string))
  : list string := default prev (last gs).

(** The sentences a new chunk starts with: [current_chunk[overlap_start_index:]]. *)
Definition carry (ov : Z) (prev : list string) : list string :=
  Py.slice_from (Z.max 0 (Py.len prev - ov)) prev.

Section ChunkerSpec.

Variables chunk_size ov : Z.

(** A chunk is what it takes over from the chunk before it, followed by
    new sentences; it has at most [chunk_size] words or one new sentence. *)
Definition built (prev g : list string) : Prop :=
  exists news, g = carry ov prev ++ news
               /\ (words_of g <= chunk_size \/ length news = 1%nat).

(** What holds of the loop state after the sentences [done]. *)
Record chunker_inv (done : list string)
    (gst : list (list string) * Chunker.state) : Prop := {
  inv_chunks : Chunker.chunks gst.2 = map (Py.join " ") gst.1;
  inv_length : Chunker.current_length gst.2
               = words_of (Chunker.current_chunk gst.2);
  inv_groups : chain built [] gst.1;
  inv_current : exists news,
      Chunker.current_chunk gst.2 = carry ov (last_group [] gst.1) ++ news
      /\ deoverlap ov [] gst.1 ++ news = done
      /\ (news = [] -> gst.1 = [])
      /\ (words_of (Chunker.current_chunk gst.2) <= chunk_size
          \/ length news = 1%nat \/ news = [])
}.

End ChunkerSpec.

(** A chunk starts with the last sentences of the chunk before it. *)
Definition repeats (ov : Z) (prev g : list string) : Prop :=
  take (overlap_count ov prev) g
  = drop (length prev - overlap_count ov prev)%nat prev.

(** A chunk has at most [chunk_size] words, or it is the sentences taken
    over from the chunk before it and one new sentence. *)
Definition within (chunk_size ov : Z) (prev g : list string) : Prop :=
  word_count (Py.join " " g) <= chunk_size
  \/ length g = S (overlap_count ov prev).

(** C4 as the spec has it: every chunk but the last has at most
    [chunk_size] words, unless it is one sentence that is longer. *)
Definition nominal_size (text : string) (chunk_size ov : Z) : Prop :=
  forall (i : nat) (c : string),
    chunk_document text chunk_size ov !! i = Some c ->
    (S i < length (chunk_document text chunk_size ov))%nat ->
    word_count c <= chunk_size
    \/ (c ∈ Py.split_sentences text /\ chunk_size < word_count c).

(** [similarities[i]] *)
Definition score (similarities : list Z) (i : nat) : Z :=
  nth i similarities 0.

(** The order of the list [argsort]: by score, and by index among equal
    scores. *)
Definition sorts_before (similarities : list Z) (i j : nat) : Prop :=
  score similarities i < score similarities j
  \/ (score similarities i = score similarities j /\ (i < j)%nat).

(** What [np.argsort(similarities)] guarantees of its result: it holds
    every index of the array once, in ascending order of score. Nothing
    is said of the order among equal scores. *)
Definition sorts (similarities : list Z) (order : list nat) : Prop :=
  order ≡ₚ seq 0 (length similarities)
  /\ StronglySorted
       (fun i j => score similarities i <= score similarities j) order.

(** [order[-top_k:][::-1]]: the ranking, given the result of the sort. *)
Definition ranking (top_k : Z) (order : list nat) : list nat :=
  reverse (Py.slice_last top_k order).

(** What the ranking was asked to satisfy: [min(k, |corpus|)] indices,
    no score before a higher one, and of two equal scores the smaller
    index first. *)
Definition ranking_claim (similarities : list Z) (k : Z) : Prop :=
  Py.len (top_indices similarities k) = Z.min k (Py.len similarities)
  /\ StronglySorted (fun i j => score similarities j <= score similarities i)
       (top_indices similarities k)
  /\ (forall (a b i j : nat),
        top_indices similarities k !! a = Some i ->
        top_indices similarities k !! b = Some j ->
        score similarities i = score similarities j ->
        (i < j)%nat -> (a < b)%nat).

(** A store with one session that has answered one question, and an
    encoder that gives every text the vector [tt]. *)
Definition demo_encode (texts : list string) : outcome (list unit) :=
  Ok (map (fun _ => tt) texts).

Definition demo_session : session unit :=
  Session "Cats purr. Dogs bark." ["Cats purr. Dogs bark."] [tt] ∅
          [Turn "Who purrs here?" "Cats purr." "2024-01-01T10:00:00"]
          "2024-01-01T09:00:00".

Definition demo_store : gmap string (session unit) :=
  {[ "s1" := demo_session ]}.

(** An encoder whose model cannot be reached. *)
Definition failing_encode (texts : list string) : outcome (list unit) :=
  Raise "model unreachable".

(** C10 as it is claimed: on an id that is in the store, [create_session]
    succeeds, whatever the document, and the session stored is the new
    one with an empty conversation log. *)
Definition recreates {vec : Type}
    (encode : list string -> outcome (list vec))
    (sessions : gmap string (session vec)) (session_id text : string)
    (meta : option (gmap string string)) (now : string) : Prop :=
  is_Some (sessions !! session_id) ->
  exists n s,
    (create_session encode sessions session_id text meta now).1
    = Success (Created session_id n)
    /\ (create_session encode sessions session_id text meta now).2
       !! session_id = Some s
    /\ document_text s = text
    /\ conversation_history s = [].

(** A tokenizer for the scenario: it splits after a full stop that is
    followed by blanks, as [split_sentences] does. *)
Definition demo_tokenize (text : string) : outcome (list string) :=
  Ok (Py.split_sentences text).

(** A remote model that answers one question about [demo_session], and
    a parser that reads this answer. *)
Definition demo_reply : string :=
  "```json {answer: Dogs bark., confidence_score: 0.9} ```".

Definition demo_chat_with_llm (document_context question language : string)
    (history : list turn) : outcome string := Ok demo_reply.

Definition demo_json_loads (s : string) : option json :=
  if String.eqb s "{answer: Dogs bark., confidence_score: 0.9}"
  then Some (JObject (Some "Dogs bark.") (Some "0.9")) else None.

Definition demo_request (use_llm : bool) : Request.t :=
  Request.Make "s1" "What do dogs do?" "english" use_llm.

Definition demo_ask (use_llm : bool)
  : http Response.t * gmap string (session unit) :=
  ask_question demo_encode (fun _ _ => 1) (fun _ => 1) (fun z => z)
    true demo_chat_with_llm demo_json_loads demo_store
    (demo_request use_llm) "2024-01-01T11:00:00" "2024-01-01T11:00:01".

(** * The rest of [chatbot.py] *)

Module History.
(** The dict returned by [get_session_history]. *)
Record t := Make {
  history : list turn;
  document_summary : string;
  created_at : string;
  total_questions : Z
}.
End History.

Module Info.
(** One entry of the list returned by [get_all_sessions]. *)
Record t := Make {
  session_id : string;
  document_name : string;
  created_at : string;
  total_questions : Z;
  document_length : Z
}.
End Info.

(** [len(s)] for a string. *)
Definition str_len (s : string) : Z := Z.of_nat (String.length s).

Section ChatbotRest.

Context {vec : Type}.
Variable encode : list string -> outcome (list vec).
Variable cosine : vec -> vec -> Z.
Variable mean : list Z -> Z.
Variable round3 : Z -> Z.

Abbreviation store := (gmap string (session vec)).

(** The [try] block of [answer_question]: the dict it returns, or what it
    raises. The dict of an answer also holds ["timestamp"], here [now]. *)
Definition answer_question_body (document_text question : string)
    (conversation_history : option (list turn)) (now : string)
  : outcome (reply (answered * string)) :=
  let chunks := chunk_document_default document_text in
  if is_nil chunks then Ok (Error "Could not process document")
  else
    found ← find_relevant_context encode cosine mean question chunks 3;
    let context := found.1.1 in
    let confidence := found.1.2 in
    let relevant_chunks := found.2 in
    let answer := generate_answer question context conversation_history in
    Ok (Success (Answered answer (Measured (round3 confidence))
                          (preview context) (Some relevant_chunks), now)).

Definition answer_question (document_text question : string)
    (conversation_history : option (list turn)) (now : string)
  : reply (answered * string) :=
  match answer_question_body document_text question conversation_history now
  with
  | Ok result => result
  | Raise msg => Error ("Failed to generate answer: " +:+ msg)
  end.

(** [get_session_history]; the preview is [document_text[:200] + "..."],
    with the dots also after a short document. *)
Definition get_session_history (sessions : store) (session_id : string)
  : reply History.t :=
  match sessions !! session_id with
  | None => Error "Session not found"
  | Some s =>
      Success (History.Make (conversation_history s)
                 (Py.prefix 200 (document_text s) +:+ "...")
                 (created_at s)
                 (Py.len (conversation_history s)))
  end.

(** The entry of one session in [get_all_sessions]. *)
Definition session_info (session_id : string) (session_data : session vec)
  : Info.t :=
  Info.Make session_id
    (default "Unknown" (metadata session_data !! "document_name"))
    (created_at session_data)
    (Py.len (conversation_history session_data))
    (str_len (document_text session_data)).

(** [get_all_sessions]: [{"sessions": sessions_list, "total": ...}]. The
    entries come in the order in which the store enumerates its
    sessions; the order of a Python dict, that of insertion, is not kept
    by the store. *)
Definition get_all_sessions (sessions : store) : list Info.t * Z :=
  let sessions_list :=
    map (fun entry => session_info entry.1 entry.2) (map_to_list sessions) in
  (sessions_list, Py.len sessions_list).

(** [test_connection] *)
Definition test_connection : bool :=
  match encode ["This is a test"] with
  | Ok _ => true
  | Raise _ => false
  end.

End ChatbotRest.

(** * Predicates on texts *)

(** Every character of [s] satisfies [p]. *)
Fixpoint all_chars (p : ascii -> bool) (s : string) : bool :=
  match s with
  | "" => true
  | String c s' => p c && all_chars p s'
  end.

(** The last character of [s] is one of [.], [!], [?]. *)
Fixpoint ends_terminal (s : string) : bool :=
  match s with
  | "" => false
  | String c "" => Py.is_terminal c
  | String _ s' => ends_terminal s'
  end.

(** The first character of [s], if any, is not whitespace. *)
Definition starts_solid (s : string) : bool :=
  match s with
  | "" => true
  | String c _ => negb (Py.is_space c)
  end.

(** [P] holds of every element but the last. *)
Fixpoint all_but_last {A} (P : A -> Prop) (l : list A) : Prop :=
  match l with
  | [] => True
  | [_] => True
  | x :: l' => P x /\ all_but_last P l'
  end.

(** * The rest of [summarizer2.py] *)

(** The dict [keywords] of [classify_document_by_keyword], in the order
    in which it is written, which is the order of the loop. *)
Definition keywords : list (string * list string) :=
  [ ("resume", ["experience"; "skills"; "qualifications"; "education";
                "certifications"]);
    ("legal", ["agreement"; "contract"; "shall"; "pursuant to"; "testament"]);
    ("academic", ["research"; "study"; "methodology"; "abstract";
                  "hypothesis"]);
    ("news", ["breaking news"; "announced"; "reported"; "authorities said"]);
    ("financial", ["invoice"; "earnings"; "balance"; "fiscal year";
                   "revenue"]);
    ("technical", ["install"; "api"; "server"; "database"; "configure"]);
    ("email", ["subject:"; "dear"; "best regards"; "sincerely"]);
    ("review", ["stars"; "recommend"; "rating"; "customer service"]);
    ("story", ["chapter"; "once upon a time"; "character"; "plot"]) ].

(** [any(word in text_lower for word in words)] *)
Definition any_in (words : list string) (text_lower : string) : bool :=
  existsb (fun word => Py.contains word text_lower) words.

(** The loop [for doc_type, words in keywords.items()] over a table. *)
Fixpoint first_match (table : list (string * list string))
    (text_lower : string) : string :=
  match table with
  | [] => "unknown"
  | (doc_type, words) :: table' =>
      if any_in words text_lower then doc_type
      else first_match table' text_lower
  end.

Definition classify_document_by_keyword (text : string) : string :=
  first_match keywords (Py.lower text).

(** The dict returned by [HybridSummarizer.summarize]; its ["metadata"]
    repeats the arguments and holds the three lengths. *)
Record summary := Summary {
  document_type : string;
  extractive_summary : string;
  context_prompt : string;
  final_summary : string;
  original_length : Z;
  extractive_length : Z;
  final_length : Z
}.

Section HybridSummarizer.

Context {vec token : Type}.
Variable sent_tokenize : string -> outcome (list string).
Variable encode : list string -> outcome (list vec).
Variable cosine : vec -> vec -> Z.
Variable pagerank : list (list Z) -> outcome (list Z).
(** [self.doc_classifier]: [None] when the classifier could not be
    loaded; otherwise the label [result[0]['label']] it gives a text. *)
Variable doc_classifier : option (string -> outcome string).
(** [self.abs_tokenizer.encode] and [.decode] *)
Variable tokenizer_encode : string -> outcome (list token).
Variable tokenizer_decode : list token -> outcome string.
(** Tokenizing the prompt, [self.abs_model.generate] with [max_length]
    and decoding its first output. *)
Variable generate : string -> Z -> outcome string.

Definition classify_document (text : string) : string :=
  match doc_classifier with
  | Some classifier =>
      match classifier (Py.prefix 512 text) with
      | Ok label => label
      | Raise _ => classify_document_by_keyword text
      end
  | None => classify_document_by_keyword text
  end.

Definition build_context_prompt (doc_type profession purpose
    extractive_summary : string) : outcome string :=
  let template :=
    "Summarize this " +:+ doc_type +:+ " document for a " +:+ profession
    +:+ " focusing on " +:+ purpose +:+ ": " +:+ extractive_summary in
  tokens ← tokenizer_encode template;
  if 512 <? Py.len tokens then tokenizer_decode (Py.slice_to 510 tokens)
  else Ok template.

Definition abstractive_summarize (prompt : string) (max_length : Z)
  : outcome string :=
  generated ← generate prompt max_length;
  Ok (Py.strip generated).

(** [HybridSummarizer.summarize] *)
Definition hybrid_summarize (text profession purpose : string)
    (num_sentences : Z) (document_type : string) : outcome summary :=
  if word_count text <? 20
  then Raise "Input text is too short. Please provide at least 20 words."
  else
    let text := Py.prefix (Z.to_nat 10000) text in
    let doc_type :=
      if String.eqb (Py.lower document_type) "auto"
      then classify_document text else Py.lower document_type in
    extractive_summary ←
      extractive_summarize sent_tokenize encode cosine pagerank
                           text num_sentences;
    if negb (Py.nonempty (Py.strip extractive_summary))
    then Raise "Could not extract key sentences from the document."
    else
      context_prompt ←
        build_context_prompt doc_type profession purpose extractive_summary;
      final_summary ← abstractive_summarize context_prompt 150;
      Ok (Summary doc_type extractive_summary context_prompt final_summary
                  (str_len text) (str_len extractive_summary)
                  (str_len final_summary)).

(** The module-level [summarize]: the final summary, or one exception
    for whatever was raised. *)
Definition summarize (text : string) (num_sentences : Z)
    (profession purpose document_type : string) : outcome string :=
  match hybrid_summarize text profession purpose num_sentences document_type
  with
  | Ok result => Ok (final_summary result)
  | Raise msg => Raise ("Summarization failed: " +:+ msg)
  end.

End HybridSummarizer.

(** A ranking for the examples, with the scores of three sentences. *)
Definition demo_pagerank (similarity_matrix : list (list Z))
  : outcome (list Z) := Ok [1; 3; 2].

(** An abstractive model for the examples: the tokens are the words, and
    every prompt gets the same summary. *)
Definition demo_tokenizer_encode (s : string) : outcome (list string) :=
  Ok (Py.split_ws s).
Definition demo_tokenizer_decode (tokens : list string) : outcome string :=
  Ok (Py.join " " tokens).
Definition demo_generate (prompt : string) (max_length : Z)
  : outcome string := Ok "  Animals make sounds.  ".

Definition demo_hybrid (text document_type : string) : outcome summary :=
  hybrid_summarize demo_tokenize demo_encode (fun _ _ => 1) demo_pagerank
    None demo_tokenizer_encode demo_tokenizer_decode demo_generate
    text "teacher" "overview" 2 document_type.

Definition demo_text : string :=
  "Cats purr when they are very happy. Dogs bark at the mail carrier daily. Fish swim. Birds sing in the early morning hours.".

(** * The other handlers of [endpoints/chat.py] *)

(** [s.startswith(p)] and [s.endswith(p)] *)
Definition startswith (p s : string) : bool := String.prefix p s.

Definition endswith (p s : string) : bool :=
  let n := String.length s in
  let k := String.length p in
  (k <=? n)%nat && String.eqb (String.substring (n - k) k s) p.

Module UploadResponse.
(** [UploadDocumentResponse] *)
Record t := Make {
  success : bool;
  session_id : string;
  document_name : string;
  document_length : Z;
  chunks_created : Z;
  message : string;
  timestamp : string
}.
End UploadResponse.

Module Upload.
(** An uploaded file: [file.filename], what [file.read()] gives, and the
    query parameter [document_name]. *)
Record t := Make {
  filename : option string;
  file_content : string;
  document_name : option string
}.
End Upload.

Module Entry.
(** One message of the conversation in [ConversationHistoryResponse]:
    [{"type", "content", "timestamp"}]. *)
Record t := Make {
  type : string;
  content : string;
  timestamp : string
}.
End Entry.

Module HistoryResponse.
(** [ConversationHistoryResponse] *)
Record t := Make {
  success : bool;
  session_id : string;
  document_name : string;
  total_messages : Z;
  conversation : list Entry.t;
  document_preview : string
}.
End HistoryResponse.

Module Done.
(** The dict returned by [delete_chat_session] and, with the session id,
    by [clear_chat_history]. *)
Record t := Make {
  success : bool;
  session_id : option string;
  message : string;
  timestamp : string
}.
End Done.

(** [x or y] for an optional string: [None] and [""] give [y]. *)
Definition or_else (x : option string) (y : string) : string :=
  match x with
  | Some s => if Py.nonempty s then s else y
  | None => y
  end.

(** [filename.split(".")[-1].lower() if "." in filename else ""] *)
Definition file_ext_of (filename : string) : string :=
  if Py.contains "." filename
  then Py.lower (List.last (Py.split_on "." filename) "")
  else "".

Definition supported (file_ext : string) : bool :=
  String.eqb file_ext "pdf" || String.eqb file_ext "docx"
  || String.eqb file_ext "txt".

Section Handlers.

Context {vec : Type}.
Variable encode : list string -> outcome (list vec).
(** [file_content.decode('utf-8')] *)
Variable decode_utf8 : string -> outcome string.
(** Writing the content to a temporary file with the suffix of the
    extension, [extract_text(temp_path, file_ext)], and removing the
    file. *)
Variable extract_text : string -> string -> outcome string.
Variable json_loads : string -> option json.

Abbreviation store := (gmap string (session vec)).

(** The text of an uploaded file, or what reading it raises. *)
Definition extracted_text_of (file_ext file_content : string)
  : outcome string :=
  if String.eqb file_ext "txt" then decode_utf8 file_content
  else extract_text file_content file_ext.

(** [upload_document_file_for_chat]: [except HTTPException: raise] comes
    first, so the exceptions of status 400 are passed on as they are. *)
Definition upload_document_file_for_chat (sessions : store)
    (file : Upload.t) (uuid now_session now : string)
  : http UploadResponse.t * store :=
  let filename := or_else (Upload.filename file) "document" in
  let file_ext := file_ext_of filename in
  if negb (supported file_ext)
  then (HTTPException 400
          "Unsupported file type. Allowed: .pdf, .docx, .txt", sessions)
  else
    match extracted_text_of file_ext (Upload.file_content file) with
    | Raise msg =>
        (HTTPException 500 ("Failed to upload file: " +:+ msg), sessions)
    | Ok extracted_text =>
        if word_count extracted_text <? 20
        then (HTTPException 400
                "Document too short. Please provide a document with at least 20 words.",
              sessions)
        else
          let session_id := uuid in
          let doc_name := or_else (Upload.document_name file) filename in
          let created :=
            create_session encode sessions session_id extracted_text
              (Some (<[ "document_name" := doc_name ]>
                       {[ "filename" := filename ]}))
              now_session in
          match created.1 with
          | Error e => (HTTPException 400 e, created.2)
          | Success result =>
              (Respond (UploadResponse.Make true session_id doc_name
                          (str_len extracted_text) (chunks_count result)
                          ("File '" +:+ filename
                           +:+ "' uploaded successfully. Use session_id '"
                           +:+ session_id +:+ "' to ask questions.")
                          now),
               created.2)
          end
    end.

(** The answer of a turn as [get_chat_history] shows it: the ["answer"]
    of a stored JSON object, else the stored text. A parsed value that
    is not an object has no [get]: that is raised. *)
Definition shown_answer (answer_content : string) : outcome string :=
  if startswith "{" (Py.strip answer_content)
     && endswith "}" (Py.strip answer_content)
  then
    match json_loads answer_content with
    | Some (JObject a _) => Ok (default answer_content a)
    | Some (JOther ty) =>
        Raise ("'" +:+ ty +:+ "' object has no attribute 'get'")
    | None => Ok answer_content
    end
  else Ok answer_content.

(** The two messages of one turn. *)
Definition messages_of (item : turn) : outcome (list Entry.t) :=
  parsed_answer ← shown_answer (answer item);
  Ok [Entry.Make "question" (question item) (timestamp item);
      Entry.Make "answer" parsed_answer (timestamp item)].

Fixpoint conversation_of (items : list turn) : outcome (list Entry.t) :=
  match items with
  | [] => Ok []
  | item :: items' =>
      messages ← messages_of item;
      rest ← conversation_of items';
      Ok (messages ++ rest)
  end.

(** [get_chat_history] *)
Definition get_chat_history (sessions : store) (session_id : string)
  : http HistoryResponse.t :=
  let result := get_session_history sessions session_id in
  let not_found :=
    match result with
    | Error e => String.eqb (Py.lower e) "session not found"
    | Success _ => false
    end in
  if not_found then HTTPException 404 "Session not found"
  else
    let document_name :=
      match sessions !! session_id with
      | Some session_data =>
          default "Unknown" (metadata session_data !! "document_name")
      | None => "Unknown"
      end in
    let items :=
      match result with
      | Success h => History.history h
      | Error _ => []
      end in
    match conversation_of items with
    | Raise msg => HTTPException 500 ("Failed to get history: " +:+ msg)
    | Ok conversation =>
        Respond (HistoryResponse.Make true session_id document_name
                   (Py.len conversation) conversation
                   match result with
                   | Success h => History.document_summary h
                   | Error _ => ""
                   end)
    end.

(** [delete_chat_session] *)
Definition delete_chat_session (sessions : store) (session_id now : string)
  : http Done.t * store :=
  let result := delete_session sessions session_id in
  if result.1
  then (Respond (Done.Make true None
                   ("Session '" +:+ session_id +:+ "' deleted successfully")
                   now), result.2)
  else (HTTPException 404 "Session not found", result.2).

(** [clear_chat_history] *)
Definition clear_chat_history (sessions : store) (session_id now : string)
  : http Done.t * store :=
  let result := clear_history sessions session_id in
  match result.1 with
  | Error _ => (HTTPException 404 "Session not found", result.2)
  | Success _ =>
      (Respond (Done.Make true (Some session_id)
                  "Conversation history cleared. Document retained." now),
       result.2)
  end.

End Handlers.

(** A decoder and a parser of files for the examples of the handlers. *)
Definition demo_decode (content : string) : outcome string := Ok content.

Definition demo_extract_text (content file_ext : string) : outcome string :=
  Raise "no parser".

Fixpoint repeat_string (n : nat) (s : string) : string :=
  match n with
  | O => ""
  | S n' => s +:+ repeat_string n' s
  end.

(** Two texts of more than 10000 characters with the same first 10000. *)
Definition demo_long : string := repeat_string 500 "word and more words. ".
Definition demo_longer : string := demo_long +:+ "An extra tail.".

(** * Properties *)

(** ** Words of joined sentences *)

Lemma split_ws_from_space (sp : ascii) (a b cur : string) :
  Py.is_space sp = true ->
  Py.split_ws_from cur (a +:+ String sp b)
  = Py.split_ws_from cur a ++ Py.split_ws_from "" b.
Proof.
  intros Hsp. revert cur.
  induction a as [|c a IH]; intros cur; simpl.
  - rewrite Hsp. destruct (Py.nonempty cur); reflexivity.
  - destruct (Py.is_space c).
    + destruct (Py.nonempty cur); simpl; rewrite IH; reflexivity.
    + apply IH.
Qed.

Lemma words_of_app (l1 l2 : list string) :
  words_of (l1 ++ l2) = words_of l1 + words_of l2.
Proof.
  unfold words_of. induction l1 as [|s l1 IH]; simpl; [reflexivity|].
  rewrite IH. lia.
Qed.

Lemma words_of_single (s : string) : words_of [s] = word_count s.
Proof. unfold words_of. simpl. lia. Qed.

(** The words of a chunk are the words of its sentences: what
    [current_length] counts is [len(chunk.split())]. *)
Lemma word_count_join (g : list string) :
  word_count (Py.join " " g) = words_of g.
Proof.
  induction g as [|x g IH]; [reflexivity|].
  destruct g as [|y g].
  - rewrite words_of_single. reflexivity.
  - change (Py.join " " (x :: y :: g))
      with (x +:+ String " " (Py.join " " (y :: g))).
    change (words_of (x :: y :: g)) with (word_count x + words_of (y :: g)).
    rewrite <- IH. unfold word_count, Py.split_ws, Py.len.
    rewrite split_ws_from_space by reflexivity.
    rewrite length_app. lia.
Qed.

(** ** The chunker's invariant *)

Lemma last_group_snoc prev gs g : last_group prev (gs ++ [g]) = g.
Proof. unfold last_group. rewrite last_snoc. reflexivity. Qed.

Lemma last_group_cons prev g gs :
  last_group prev (g :: gs) = last_group g gs.
Proof.
  unfold last_group. destruct gs as [|g' gs]; [reflexivity|].
  rewrite last_cons. destruct (last (g' :: gs)) eqn:E; [reflexivity|].
  exfalso. revert E. clear. revert g'.
  induction gs as [|h gs IH]; intros g'; [discriminate|].
  rewrite last_cons. destruct (last (h :: gs)) eqn:E; [discriminate|].
  intros _. exact (IH h E).
Qed.

Lemma chain_snoc P prev gs g :
  chain P prev (gs ++ [g]) <-> chain P prev gs /\ P (last_group prev gs) g.
Proof.
  revert prev. induction gs as [|h gs IH]; intros prev; simpl.
  - unfold last_group. simpl. tauto.
  - rewrite IH, last_group_cons. tauto.
Qed.

Lemma chain_impl (P Q : list string -> list string -> Prop) prev gs :
  (forall p g, P p g -> Q p g) -> chain P prev gs -> chain Q prev gs.
Proof.
  intros HPQ. revert prev.
  induction gs as [|g gs IH]; intros prev; simpl; [tauto|].
  intros [H1 H2]. split; [apply HPQ, H1 | apply IH, H2].
Qed.

Lemma deoverlap_snoc ov prev gs g :
  deoverlap ov prev (gs ++ [g])
  = deoverlap ov prev gs ++ drop (overlap_count ov (last_group prev gs)) g.
Proof.
  revert prev. induction gs as [|h gs IH]; intros prev; simpl.
  - unfold last_group. simpl. rewrite app_nil_r. reflexivity.
  - rewrite IH, last_group_cons, app_assoc. reflexivity.
Qed.

Lemma carry_length ov prev : length (carry ov prev) = overlap_count ov prev.
Proof. unfold carry, Py.slice_from, overlap_count. apply length_drop. Qed.

Lemma carry_nil ov : carry ov [] = [].
Proof. unfold carry, Py.slice_from. apply drop_nil. Qed.

Lemma carry_suffix ov prev :
  carry ov prev = drop (length prev - overlap_count ov prev)%nat prev.
Proof.
  unfold carry, Py.slice_from, overlap_count.
  destruct (decide (Z.to_nat (Z.max 0 (Py.len prev - ov)) <= length prev)%nat)
    as [Hle|Hgt].
  - f_equal. lia.
  - rewrite !drop_ge by lia. reflexivity.
Qed.

Lemma drop_carry ov prev news :
  drop (overlap_count ov prev) (carry ov prev ++ news) = news.
Proof. rewrite <- carry_length. apply drop_app_length. Qed.

Section ChunkerInvariant.

Variables chunk_size ov : Z.

Lemma chunker_inv_init : chunker_inv chunk_size ov [] ([], Chunker.init).
Proof.
  split; simpl; [reflexivity | reflexivity | exact I |].
  exists []. unfold last_group. simpl. rewrite carry_nil.
  repeat split; auto.
Qed.

Lemma chunker_inv_step done gst sentence :
  chunker_inv chunk_size ov done gst ->
  chunker_inv chunk_size ov (done ++ [sentence])
              (Chunker.group_step chunk_size ov gst sentence).
Proof.
  destruct gst as [gs st]. intros [Hc Hl Hg (news & Hcur & Hdone & Hnil & Hsz)].
  simpl in *. unfold Chunker.group_step, Chunker.step. simpl.
  destruct (Chunker.closes chunk_size st sentence) eqn:Hclose.
  - unfold Chunker.closes in Hclose.
    apply andb_true_iff in Hclose as [_ Hne].
    assert (Hnews : news <> []).
    { intros ->. rewrite (Hnil eq_refl) in Hcur.
      unfold last_group in Hcur. simpl in Hcur.
      rewrite carry_nil in Hcur. simpl in Hcur.
      rewrite Hcur in Hne. discriminate. }
    split; simpl.
    + rewrite map_app, Hc. reflexivity.
    + fold (carry ov (Chunker.current_chunk st)).
      rewrite words_of_app, words_of_single. reflexivity.
    + apply chain_snoc. split; [exact Hg|].
      exists news. split; [exact Hcur|].
      destruct Hsz as [H|[H|H]]; [left; exact H | right; exact H | tauto].
    + exists [sentence]. fold (carry ov (Chunker.current_chunk st)).
      rewrite last_group_snoc, deoverlap_snoc.
      split; [reflexivity|]. split.
      * rewrite Hcur at 1. rewrite drop_carry, <- Hdone. reflexivity.
      * split; [discriminate|]. right. left. reflexivity.
  - split; simpl.
    + exact Hc.
    + rewrite words_of_app, words_of_single, Hl. reflexivity.
    + exact Hg.
    + exists (news ++ [sentence]). split; [|split; [|split]].
      * rewrite Hcur, app_assoc. reflexivity.
      * rewrite <- Hdone, app_assoc. reflexivity.
      * intros H. destruct news; discriminate H.
      * unfold Chunker.closes in Hclose.
        apply andb_false_iff in Hclose as [Hle|Hemp].
        -- left. rewrite words_of_app, words_of_single, <- Hl.
           apply Z.ltb_ge in Hle. exact Hle.
        -- right. left.
           destruct (Chunker.current_chunk st) as [|? ?] eqn:E;
             [|discriminate Hemp].
           destruct news as [|? ?]; [reflexivity|].
           symmetry in Hcur. apply app_eq_nil in Hcur as [_ Hcur].
           discriminate Hcur.
Qed.

Lemma chunker_inv_fold sentences done gst :
  chunker_inv chunk_size ov done gst ->
  chunker_inv chunk_size ov (done ++ sentences)
    (fold_left (Chunker.group_step chunk_size ov) sentences gst).
Proof.
  revert done gst.
  induction sentences as [|s ss IH]; intros done gst H; simpl.
  - rewrite app_nil_r. exact H.
  - replace (done ++ s :: ss) with ((done ++ [s]) ++ ss)
      by (rewrite <- app_assoc; reflexivity).
    apply IH, chunker_inv_step, H.
Qed.

(** The recorded loop runs the loop of [chunk_sentences]. *)
Lemma group_fold_state sentences gst :
  (fold_left (Chunker.group_step chunk_size ov) sentences gst).2
  = fold_left (Chunker.step chunk_size ov) sentences gst.2.
Proof.
  revert gst. induction sentences as [|s ss IH]; intros gst; simpl;
    [reflexivity|].
  rewrite IH. reflexivity.
Qed.

(** What the loop guarantees of the chunks of any list of sentences. *)
Lemma chunk_groups_spec (sentences : list string) :
  let gs := chunk_groups sentences chunk_size ov in
  chunk_sentences sentences chunk_size ov = map (Py.join " ") gs
  /\ chain (built chunk_size ov) [] gs
  /\ deoverlap ov [] gs = sentences.
Proof.
  pose proof (chunker_inv_fold sentences [] _ chunker_inv_init) as H.
  pose proof (group_fold_state sentences ([], Chunker.init)) as Hst.
  simpl in H, Hst. unfold chunk_groups, chunk_sentences. simpl.
  rewrite <- Hst.
  destruct (fold_left (Chunker.group_step chunk_size ov) sentences
              ([], Chunker.init)) as [gs st].
  destruct H as [Hc Hl Hg (news & Hcur & Hdone & Hnil & Hsz)]. simpl in *.
  destruct (Chunker.current_chunk st) as [|c cur] eqn:E; simpl.
  - symmetry in Hcur. apply app_eq_nil in Hcur as [_ ->].
    rewrite (Hnil eq_refl) in *. simpl in *. rewrite Hc. auto.
  - assert (Hnews : news <> []).
    { intros ->. rewrite (Hnil eq_refl) in Hcur.
      unfold last_group in Hcur. simpl in Hcur.
      rewrite carry_nil in Hcur. discriminate. }
    split; [|split].
    + rewrite map_app, Hc. reflexivity.
    + apply chain_snoc. split; [exact Hg|].
      exists news. split; [exact Hcur|].
      destruct Hsz as [H|[H|H]]; [left; exact H | right; exact H | tauto].
    + rewrite deoverlap_snoc. rewrite Hcur at 1. rewrite drop_carry.
      exact Hdone.
Qed.

End ChunkerInvariant.

(** ** The chunker: claims C3, C4 and C5 *)

Lemma built_repeats chunk_size ov prev g :
  built chunk_size ov prev g -> repeats ov prev g.
Proof.
  intros (news & -> & _). unfold repeats.
  rewrite take_app_length' by (symmetry; apply carry_length).
  apply carry_suffix.
Qed.

Lemma built_within chunk_size ov prev g :
  built chunk_size ov prev g -> within chunk_size ov prev g.
Proof.
  intros (news & -> & [H|H]); [left | right].
  - rewrite word_count_join. exact H.
  - rewrite length_app, carry_length, H. lia.
Qed.

(** C3. The chunks of a document are the joins of groups of sentences;
    every group but the first starts with the sentences it repeats from
    the end of the group before it; with these removed, the groups
    concatenate to the sentences of the document, in order. *)
Theorem chunk_document_lossless (text : string) (chunk_size ov : Z) :
  chunk_document text chunk_size ov
  = map (Py.join " ") (chunk_groups (Py.split_sentences text) chunk_size ov)
  /\ chain (repeats ov) []
       (chunk_groups (Py.split_sentences text) chunk_size ov)
  /\ deoverlap ov []
       (chunk_groups (Py.split_sentences text) chunk_size ov)
     = Py.split_sentences text.
Proof.
  destruct (chunk_groups_spec chunk_size ov (Py.split_sentences text))
    as (H1 & H2 & H3).
  split; [exact H1|]. split; [|exact H3].
  eapply chain_impl; [|exact H2]. apply built_repeats.
Qed.

Example chunk_document_lossless_run :
  chunk_groups (Py.split_sentences "a b c. d e f. g h i. j k l.") 6 2
  = [["a b c."; "d e f."]; ["a b c."; "d e f."; "g h i."];
     ["d e f."; "g h i."; "j k l."]]
  /\ deoverlap 2 []
       (chunk_groups (Py.split_sentences "a b c. d e f. g h i. j k l.") 6 2)
     = ["a b c."; "d e f."; "g h i."; "j k l."].
Proof. split; reflexivity. Qed.

(** C4, counterexample. With [chunk_size = 6] and two sentences of overlap,
    the second chunk of four 3-word sentences has 9 words: the two
    sentences taken over and the new one. *)
Lemma nominal_size_fails :
  ~ nominal_size "a b c. d e f. g h i. j k l." 6 2.
Proof.
  intros H.
  specialize (H 1%nat "a b c. d e f. g h i." eq_refl).
  destruct H as [H|[H _]].
  - vm_compute. lia.
  - vm_compute in H. apply H. reflexivity.
  - vm_compute in H.
    repeat (apply elem_of_cons in H as [H|H]; [discriminate H|]).
    apply elem_of_nil in H. exact H.
Qed.

(** C4, amended. Every chunk, the last one too, has at most [chunk_size]
    words or consists of the sentences taken over from the chunk before
    it and exactly one new sentence. *)
Theorem chunk_document_within (text : string) (chunk_size ov : Z) :
  chunk_document text chunk_size ov
  = map (Py.join " ") (chunk_groups (Py.split_sentences text) chunk_size ov)
  /\ chain (within chunk_size ov) []
       (chunk_groups (Py.split_sentences text) chunk_size ov).
Proof.
  destruct (chunk_groups_spec chunk_size ov (Py.split_sentences text))
    as (H1 & H2 & _).
  split; [exact H1|].
  eapply chain_impl; [|exact H2]. apply built_within.
Qed.

(** Without overlap the bound of the spec holds: a chunk of more than
    [chunk_size] words is a single sentence. *)
Corollary chunk_document_within_no_overlap (text : string) (chunk_size : Z) :
  Forall (fun g => word_count (Py.join " " g) <= chunk_size
                   \/ length g = 1%nat)
         (chunk_groups (Py.split_sentences text) chunk_size 0).
Proof.
  destruct (chunk_groups_spec chunk_size 0 (Py.split_sentences text))
    as (_ & H & _).
  apply (chain_impl _ (within chunk_size 0)) in H; [|apply built_within].
  revert H. generalize (@nil string).
  induction (chunk_groups (Py.split_sentences text) chunk_size 0)
    as [|g gs IH]; intros prev; simpl; [constructor|].
  intros [Hg Hgs]. constructor; [|exact (IH g Hgs)].
  destruct Hg as [Hg|Hg]; [left; exact Hg | right].
  rewrite Hg. unfold overlap_count, Py.len. lia.
Qed.

(** C5. The empty text and a text of blanks give one chunk, the text
    itself, where the spec has no chunk. *)
Lemma chunk_document_blank :
  chunk_document_default "" = [""]
  /\ chunk_document_default "   " = ["   "].
Proof. split; reflexivity. Qed.

Lemma split_sentences_from_cons cur st s :
  exists x l, Py.split_sentences_from cur st s = x :: l.
Proof.
  revert cur st. induction s as [|c s IH]; intros cur st; simpl; [eauto|].
  destruct st; destruct (Py.is_space c); eauto.
Qed.

Lemma chunk_step_current chunk_size ov st s :
  Chunker.current_chunk (Chunker.step chunk_size ov st s) <> [].
Proof.
  unfold Chunker.step.
  destruct (Chunker.closes chunk_size st s); simpl;
    intros H; apply app_eq_nil in H as [_ H]; discriminate H.
Qed.

(** No text at all is chunked into the empty list: [split_sentences]
    always yields a piece, and the last piece is always put in a chunk. *)
Lemma chunk_document_never_empty (text : string) (chunk_size ov : Z) :
  chunk_document text chunk_size ov <> [].
Proof.
  unfold chunk_document, chunk_sentences, Py.split_sentences.
  destruct (split_sentences_from_cons "" Py.AfterOther text) as (x & l & ->).
  generalize Chunker.init. revert x.
  induction l as [|y l IH] using rev_ind; intros x st.
  - simpl. pose proof (chunk_step_current chunk_size ov st x) as H.
    destruct (Chunker.current_chunk (Chunker.step chunk_size ov st x));
      [congruence|].
    simpl. intros E. apply app_eq_nil in E as [_ E]. discriminate E.
  - change (x :: l ++ [y]) with ((x :: l) ++ [y]).
    rewrite fold_left_app. simpl.
    match goal with |- context [Chunker.step _ _ ?s y] =>
      pose proof (chunk_step_current chunk_size ov s y) as H;
      destruct (Chunker.current_chunk (Chunker.step chunk_size ov s y));
        [congruence|]
    end.
    simpl. intros E. apply app_eq_nil in E as [_ E]. discriminate E.
Qed.

(** ** Ranking: claim C2 *)

Section StableSort.

Context {A : Type}.
Variable key : A -> Z.

Lemma insert_asc_perm (x : A) (l : list A) :
  Py.insert_asc key x l ≡ₚ x :: l.
Proof.
  induction l as [|y l IH]; simpl; [reflexivity|].
  destruct (key x <=? key y); [reflexivity|].
  rewrite IH. apply Permutation_swap.
Qed.

Lemma sort_asc_perm (l : list A) : Py.sort_asc key l ≡ₚ l.
Proof.
  induction l as [|x l IH]; simpl; [reflexivity|].
  rewrite insert_asc_perm, IH. reflexivity.
Qed.

Lemma insert_desc_perm (x : A) (l : list A) :
  Py.insert_desc key x l ≡ₚ x :: l.
Proof.
  induction l as [|y l IH]; simpl; [reflexivity|].
  destruct (key y <=? key x); [reflexivity|].
  rewrite IH. apply Permutation_swap.
Qed.

Lemma sort_desc_perm (l : list A) : Py.sort_desc key l ≡ₚ l.
Proof.
  induction l as [|x l IH]; simpl; [reflexivity|].
  rewrite insert_desc_perm, IH. reflexivity.
Qed.

End StableSort.

Lemma insert_asc_sorted (sims : list Z) (i : nat) (l : list nat) :
  StronglySorted (sorts_before sims) l ->
  Forall (fun j => (i < j)%nat) l ->
  StronglySorted (sorts_before sims) (Py.insert_asc (score sims) i l).
Proof.
  induction l as [|y l IH]; intros Hs Hi; simpl.
  - constructor; constructor.
  - apply StronglySorted_cons in Hs as [Hy Hs].
    apply Forall_cons in Hi as [Hiy Hi].
    destruct (score sims i <=? score sims y) eqn:E.
    + apply Z.leb_le in E. constructor; [constructor; assumption|].
      constructor.
      * unfold sorts_before. lia.
      * rewrite Forall_forall in Hy, Hi |- *. intros z Hz.
        specialize (Hy z Hz). specialize (Hi z Hz).
        unfold sorts_before in *. lia.
    + apply Z.leb_gt in E. constructor; [apply IH; assumption|].
      rewrite insert_asc_perm. constructor; [|exact Hy].
      unfold sorts_before. lia.
Qed.

Lemma sort_asc_sorted (sims : list Z) (l : list nat) :
  StronglySorted lt l ->
  StronglySorted (sorts_before sims) (Py.sort_asc (score sims) l).
Proof.
  induction l as [|i l IH]; intros Hl; simpl; [constructor|].
  apply StronglySorted_cons in Hl as [Hi Hl].
  apply insert_asc_sorted; [apply IH, Hl|].
  rewrite sort_asc_perm. exact Hi.
Qed.

Lemma seq_sorted (start n : nat) : StronglySorted lt (seq start n).
Proof.
  revert start. induction n as [|n IH]; intros start; simpl; constructor.
  - apply IH.
  - apply Forall_seq. intros j Hj. lia.
Qed.

Lemma argsort_perm (sims : list Z) :
  argsort sims ≡ₚ seq 0 (length sims).
Proof. apply sort_asc_perm. Qed.

Lemma argsort_sorted (sims : list Z) :
  StronglySorted (sorts_before sims) (argsort sims).
Proof. apply sort_asc_sorted, seq_sorted. Qed.

Lemma argsort_length (sims : list Z) : length (argsort sims) = length sims.
Proof. rewrite argsort_perm. apply length_seq. Qed.

Lemma strongly_sorted_reverse {A} (R : relation A) (l : list A) :
  StronglySorted R l -> StronglySorted (flip R) (reverse l).
Proof.
  induction 1 as [|x l Hl IH Hx]; [constructor|].
  rewrite reverse_cons. apply StronglySorted_app. split; [|split].
  - intros a b Ha Hb. apply list_elem_of_singleton in Hb as ->.
    rewrite Forall_forall in Hx. apply Hx.
    apply elem_of_reverse. exact Ha.
  - exact IH.
  - constructor; constructor.
Qed.

Lemma strongly_sorted_drop {A} (R : relation A) (n : nat) (l : list A) :
  StronglySorted R l -> StronglySorted R (drop n l).
Proof.
  intros H. rewrite <- (take_drop n l) in H.
  apply StronglySorted_app in H. tauto.
Qed.

(** C2, counterexample. Two chunks of equal similarity are returned with
    the larger index first: the ascending order is reversed as a whole. *)
Lemma ranking_claim_fails : ~ ranking_claim [5; 5] 3.
Proof.
  intros (_ & _ & H).
  specialize (H 1%nat 0%nat 0%nat 1%nat eq_refl eq_refl eq_refl).
  lia.
Qed.

(** With [top_k = 0] the slice [[-0:]] is the whole list: all four
    indices are returned, not none. *)
Example top_indices_zero : top_indices [5; 5; 1; 7] 0 = [3; 1; 0; 2]%nat.
Proof. reflexivity. Qed.

Lemma strongly_sorted_weaken {A} (R S : relation A) (l : list A) :
  (forall a b, R a b -> S a b) -> StronglySorted R l -> StronglySorted S l.
Proof.
  intros HRS. induction 1 as [|x l Hl IH Hx]; constructor; [exact IH|].
  eapply Forall_impl; [exact Hx | exact (HRS x)].
Qed.

(** The list [argsort] is a result that [np.argsort] may give, and
    [top_indices] is the ranking of it. *)
Lemma argsort_sorts (similarities : list Z) :
  sorts similarities (argsort similarities)
  /\ forall top_k,
       top_indices similarities top_k = ranking top_k (argsort similarities).
Proof.
  split; [|reflexivity]. split; [apply argsort_perm|].
  eapply strongly_sorted_weaken; [|apply argsort_sorted].
  unfold sorts_before. intros a b H. lia.
Qed.

(** Equal scores may come in either order, and the ranking follows. *)
Example sorts_ties :
  sorts [5; 5] [0; 1]%nat /\ ranking 3 [0; 1]%nat = [1; 0]%nat
  /\ sorts [5; 5] [1; 0]%nat /\ ranking 3 [1; 0]%nat = [0; 1]%nat.
Proof.
  repeat split; try reflexivity;
    try (by repeat constructor); by apply (bool_decide_unpack _).
Qed.

(** C2, amended. For [top_k >= 1] and whatever order the sort gives to
    equal scores, the ranking returns [min(top_k, |corpus|)] distinct
    indices of the corpus, no score before a higher one, and no index
    left out has a higher score than a returned one. The order among
    equal scores is not fixed. *)
Theorem ranking_descending (similarities : list Z) (order : list nat)
    (top_k : Z) :
  1 <= top_k ->
  sorts similarities order ->
  Py.len (ranking top_k order) = Z.min top_k (Py.len similarities)
  /\ StronglySorted
       (fun i j => score similarities j <= score similarities i)
       (ranking top_k order)
  /\ NoDup (ranking top_k order)
  /\ (forall i, i ∈ ranking top_k order -> (i < length similarities)%nat)
  /\ (forall i j, i ∈ ranking top_k order ->
                  (j < length similarities)%nat ->
                  j ∉ ranking top_k order ->
                  score similarities j <= score similarities i).
Proof.
  intros Hk [Hperm Hsort]. unfold ranking, Py.slice_last.
  destruct (0 <? top_k) eqn:E; [|apply Z.ltb_ge in E; lia].
  assert (length order = length similarities) as Hlen
    by (rewrite Hperm; apply length_seq).
  set (n := (length order - Z.to_nat top_k)%nat) in *.
  split; [|split; [|split; [|split]]].
  - unfold Py.len. rewrite length_reverse, length_drop. lia.
  - apply (strongly_sorted_reverse
             (fun i j => score similarities i <= score similarities j)).
    apply strongly_sorted_drop, Hsort.
  - rewrite reverse_Permutation.
    assert (NoDup order) as Hnd by (rewrite Hperm; apply NoDup_seq).
    rewrite <- (take_drop n order) in Hnd.
    apply NoDup_app in Hnd. tauto.
  - intros i Hi. apply elem_of_reverse, subseteq_drop in Hi.
    rewrite Hperm in Hi. apply elem_of_seq in Hi. lia.
  - intros i j Hi Hj Hnot. rewrite elem_of_reverse in Hi, Hnot.
    assert (j ∈ order) as Hin by (rewrite Hperm; apply elem_of_seq; lia).
    rewrite <- (take_drop n order) in Hin, Hsort.
    apply elem_of_app in Hin as [Hin|Hin]; [|contradiction].
    exact (StronglySorted_app_1_elem_of _ _ _ _ _ Hsort Hin Hi).
Qed.

(** The theorem at the default [top_k = 3] on a corpus of four chunks, for
    a sort that leaves the two equal scores in the order 1, 0. *)
Lemma ranking_descending_witness :
  1 <= 3
  /\ sorts [5; 5; 1; 7] [2; 1; 0; 3]%nat
  /\ ranking 3 [2; 1; 0; 3]%nat = [3; 0; 1]%nat
  /\ (Py.len (ranking 3 [2; 1; 0; 3]%nat) = Z.min 3 (Py.len [5; 5; 1; 7])
      /\ StronglySorted
           (fun i j => score [5; 5; 1; 7] j <= score [5; 5; 1; 7] i)
           (ranking 3 [2; 1; 0; 3]%nat)
      /\ NoDup (ranking 3 [2; 1; 0; 3]%nat)
      /\ (forall i, i ∈ ranking 3 [2; 1; 0; 3]%nat ->
                    (i < length [5; 5; 1; 7])%nat)
      /\ (forall i j, i ∈ ranking 3 [2; 1; 0; 3]%nat ->
                      (j < length [5; 5; 1; 7])%nat ->
                      j ∉ ranking 3 [2; 1; 0; 3]%nat ->
                      score [5; 5; 1; 7] j <= score [5; 5; 1; 7] i)).
Proof.
  assert (sorts [5; 5; 1; 7] [2; 1; 0; 3]%nat) as Hs.
  { split; [by apply (bool_decide_unpack _)|].
    repeat constructor; vm_compute; discriminate. }
  split; [lia|]. split; [exact Hs|]. split; [reflexivity|].
  apply (ranking_descending [5; 5; 1; 7] [2; 1; 0; 3]%nat 3); [lia | exact Hs].
Defined.

(** ** The session store: claims C6, C9 and C10 *)

Section Store.

Context {vec : Type}.
Variable encode : list string -> outcome (list vec).

Abbreviation store := (gmap string (session vec)).

(** C6. If the encoder raises, [create_session] reports the error and
    returns the store it was given; otherwise it reports success and the
    store holds, under the id, the chunks of the document, the encoder's
    output for exactly these chunks, an empty conversation log and the
    creation time, every other id being as before. (The chunker itself
    does not raise on a string.) *)
Theorem create_session_all_or_nothing (sessions : store)
    (session_id text : string) (meta : option (gmap string string))
    (now : string) :
  match encode (chunk_document_default text) with
  | Raise msg =>
      create_session encode sessions session_id text meta now
      = (Error ("Failed to create session: " +:+ msg), sessions)
  | Ok embeddings =>
      exists sessions' s,
        create_session encode sessions session_id text meta now
        = (Success (Created session_id
                      (Py.len (chunk_document_default text))), sessions')
        /\ sessions' !! session_id = Some s
        /\ document_text s = text
        /\ chunks s = chunk_document_default text
        /\ chunk_embeddings s = embeddings
        /\ encode (chunks s) = Ok (chunk_embeddings s)
        /\ conversation_history s = []
        /\ created_at s = now
        /\ (forall other, other <> session_id ->
                          sessions' !! other = sessions !! other)
  end.
Proof.
  unfold create_session.
  destruct (encode (chunk_document_default text)) as [embeddings|msg] eqn:E;
    [|reflexivity].
  eexists _, _. split; [reflexivity|].
  split; [apply lookup_insert_eq|]. simpl.
  repeat split; try reflexivity; [exact E|].
  intros other Hne. apply lookup_insert_ne. congruence.
Qed.

(** C9. On a session that is in the store, [clear_history] succeeds and
    empties the conversation log; a second call succeeds too and leaves
    the store as the first one left it; the document, the chunks and the
    embeddings of the session are those it had. *)
Theorem clear_history_twice (sessions : store) (session_id : string)
    (s : session vec) :
  sessions !! session_id = Some s ->
  exists s',
    clear_history sessions session_id
    = (Success tt, <[session_id := s']> sessions)
    /\ clear_history (<[session_id := s']> sessions) session_id
       = (Success tt, <[session_id := s']> sessions)
    /\ conversation_history s' = []
    /\ document_text s' = document_text s
    /\ chunks s' = chunks s
    /\ chunk_embeddings s' = chunk_embeddings s
    /\ metadata s' = metadata s
    /\ created_at s' = created_at s.
Proof.
  intros Hs. exists (clear s). unfold clear_history.
  rewrite Hs, lookup_insert_eq, insert_insert_eq.
  repeat split; reflexivity.
Qed.

(** C10, amended. On an id that is in the store, [create_session]
    answers as it does on the store without that id: it never fails
    because the id is taken. When the encoder does not raise it succeeds,
    and the session stored under the id is the new one alone, with an
    empty conversation log: the store is the one that creating the
    session after deleting the old one gives. When the encoder raises,
    it reports the error and the old session stays as it was. *)
Theorem create_session_again (sessions : store)
    (session_id text : string) (meta : option (gmap string string))
    (now : string) (old : session vec) :
  sessions !! session_id = Some old ->
  (create_session encode sessions session_id text meta now).1
  = (create_session encode (delete session_id sessions) session_id
                    text meta now).1
  /\ match encode (chunk_document_default text) with
     | Ok embeddings =>
         create_session encode sessions session_id text meta now
         = (Success (Created session_id
                       (Py.len (chunk_document_default text))),
            <[session_id :=
                Session text (chunk_document_default text) embeddings
                        (default ∅ meta) [] now]> sessions)
         /\ (create_session encode sessions session_id text meta now).2
            = (create_session encode (delete session_id sessions)
                              session_id text meta now).2
     | Raise msg =>
         create_session encode sessions session_id text meta now
         = (Error ("Failed to create session: " +:+ msg), sessions)
         /\ (create_session encode sessions session_id text meta now).2
            !! session_id = Some old
     end.
Proof.
  intros Hold. unfold create_session.
  destruct (encode (chunk_document_default text)) as [embeddings|msg];
    simpl.
  - split; [reflexivity|]. split; [reflexivity|].
    rewrite insert_delete_eq. reflexivity.
  - split; [reflexivity|]. split; [reflexivity | exact Hold].
Qed.

End Store.

Lemma clear_history_twice_witness :
  demo_store !! "s1" = Some demo_session
  /\ exists s',
      clear_history demo_store "s1" = (Success tt, <["s1" := s']> demo_store)
      /\ clear_history (<["s1" := s']> demo_store) "s1"
         = (Success tt, <["s1" := s']> demo_store)
      /\ conversation_history s' = []
      /\ document_text s' = document_text demo_session
      /\ chunks s' = chunks demo_session
      /\ chunk_embeddings s' = chunk_embeddings demo_session
      /\ metadata s' = metadata demo_session
      /\ created_at s' = created_at demo_session.
Proof.
  split; [reflexivity|].
  apply (clear_history_twice demo_store "s1" demo_session). reflexivity.
Defined.

(** C10, counterexample. With an encoder that raises, creating a session
    again under the id of a stored session does not succeed: the error is
    reported and the old session, with its log, is still there. *)
Lemma recreates_fails :
  ~ recreates failing_encode demo_store "s1" "Fish swim." None
      "2024-01-02T09:00:00".
Proof.
  intros H. destruct H as (n & s & H & _); [|discriminate H].
  exists demo_session. reflexivity.
Qed.

Example create_session_again_error :
  create_session failing_encode demo_store "s1" "Fish swim." None
                 "2024-01-02T09:00:00"
  = (Error "Failed to create session: model unreachable", demo_store).
Proof. reflexivity. Qed.

Lemma create_session_again_witness :
  demo_store !! "s1" = Some demo_session
  /\ (create_session demo_encode demo_store "s1" "Fish swim." None
                     "2024-01-02T09:00:00").1
     = (create_session demo_encode (delete "s1" demo_store) "s1"
                       "Fish swim." None "2024-01-02T09:00:00").1
  /\ match demo_encode (chunk_document_default "Fish swim.") with
     | Ok embeddings =>
         create_session demo_encode demo_store "s1" "Fish swim." None
                        "2024-01-02T09:00:00"
         = (Success (Created "s1"
                       (Py.len (chunk_document_default "Fish swim."))),
            <["s1" :=
                Session "Fish swim." (chunk_document_default "Fish swim.")
                        embeddings (default ∅ None) []
                        "2024-01-02T09:00:00"]> demo_store)
         /\ (create_session demo_encode demo_store "s1" "Fish swim." None
                            "2024-01-02T09:00:00").2
            = (create_session demo_encode (delete "s1" demo_store) "s1"
                              "Fish swim." None "2024-01-02T09:00:00").2
     | Raise msg =>
         create_session demo_encode demo_store "s1" "Fish swim." None
                        "2024-01-02T09:00:00"
         = (Error ("Failed to create session: " +:+ msg), demo_store)
         /\ (create_session demo_encode demo_store "s1" "Fish swim." None
                            "2024-01-02T09:00:00").2 !! "s1"
            = Some demo_session
     end.
Proof.
  split; [reflexivity|].
  apply (create_session_again demo_encode demo_store "s1" "Fish swim."
           None "2024-01-02T09:00:00" demo_session).
  reflexivity.
Defined.

(** ** The extractive summarizer: claim C7 *)

(** C7. When the text has at most [num_sentences] sentences, the summary
    is these sentences, unchanged and in their order, joined by a blank;
    the encoder and the ranking are not consulted, whatever they would
    do. *)
Theorem extractive_summarize_short {vec : Type}
    (sent_tokenize : string -> outcome (list string))
    (encode : list string -> outcome (list vec))
    (cosine : vec -> vec -> Z)
    (pagerank : list (list Z) -> outcome (list Z))
    (text : string) (num_sentences : Z) :
  Py.len (tokenize sent_tokenize text) <= num_sentences ->
  extractive_summarize sent_tokenize encode cosine pagerank
                       text num_sentences
  = Ok (Py.join " " (tokenize sent_tokenize text)).
Proof.
  intros H. unfold extractive_summarize.
  apply Z.leb_le in H. rewrite H. reflexivity.
Qed.

(** The scenario of the spec: two sentences, [num_sentences = 5], with an
    encoder and a ranking that would raise if they were called. *)
Lemma extractive_summarize_short_witness :
  Py.len (tokenize demo_tokenize "Cats purr. Dogs bark.") <= 5
  /\ tokenize demo_tokenize "Cats purr. Dogs bark."
     = ["Cats purr."; "Dogs bark."]
  /\ extractive_summarize (vec := unit) demo_tokenize
       (fun _ => Raise "no model") (fun _ _ => 0)
       (fun _ => Raise "no ranking") "Cats purr. Dogs bark." 5
     = Ok (Py.join " " (tokenize demo_tokenize "Cats purr. Dogs bark.")).
Proof.
  split; [vm_compute; discriminate|]. split; [reflexivity|].
  apply (extractive_summarize_short (vec := unit) demo_tokenize
           (fun _ => Raise "no model") (fun _ _ => 0)
           (fun _ => Raise "no ranking") "Cats purr. Dogs bark." 5).
  vm_compute. discriminate.
Defined.

(** The same when the tokenizer raises and the text is split at its full
    stops. *)
Example extractive_summarize_short_naive :
  extractive_summarize (vec := unit) (fun _ => Raise "punkt not found")
    (fun _ => Raise "no model") (fun _ _ => 0)
    (fun _ => Raise "no ranking") "Cats purr.  Dogs bark" 5
  = Ok "Cats purr. Dogs bark.".
Proof. reflexivity. Qed.

(** ** The local answer: claim C8 *)

Lemma omap_all_none {A B} (f : A -> option B) (l : list A) :
  (forall x, x ∈ l -> f x = None) -> omap f l = [].
Proof.
  induction l as [|x l IH]; intros H; simpl; [reflexivity|].
  rewrite (H x) by apply list_elem_of_here.
  apply IH. intros y Hy. apply H, list_elem_of_further, Hy.
Qed.

(** C8. When no sentence of the context shares a word with the question
    (words compared in lower case), [generate_answer] returns the fixed
    message. It is a total function: nothing is raised. *)
Theorem generate_answer_no_overlap {turn : Type}
    (question context : string) (history : option (list turn)) :
  (forall sentence, sentence ∈ Py.split_sentences context ->
                    overlap (word_set question) sentence = 0) ->
  generate_answer question context history = fallback_answer.
Proof.
  intros H. unfold generate_answer, scored_sentences.
  rewrite omap_all_none; [reflexivity|].
  intros sentence Hs. rewrite (H sentence Hs). reflexivity.
Qed.

Lemma generate_answer_no_overlap_witness :
  (forall sentence, sentence ∈ Py.split_sentences "The sky. Blue it is!" ->
                    overlap (word_set "Who WAS Turing") sentence = 0)
  /\ generate_answer (turn := turn) "Who WAS Turing" "The sky. Blue it is!"
                     None
     = fallback_answer.
Proof.
  assert (forall sentence,
             sentence ∈ Py.split_sentences "The sky. Blue it is!" ->
             overlap (word_set "Who WAS Turing") sentence = 0) as H.
  { intros sentence Hs.
    change (Py.split_sentences "The sky. Blue it is!")
      with ["The sky."; "Blue it is!"] in Hs.
    apply elem_of_cons in Hs as [->|Hs]; [vm_compute; reflexivity|].
    apply elem_of_cons in Hs as [->|Hs]; [vm_compute; reflexivity|].
    apply elem_of_nil in Hs. destruct Hs. }
  split; [exact H|].
  apply (generate_answer_no_overlap (turn := turn) "Who WAS Turing"
           "The sky. Blue it is!" None H).
Defined.

(** With a shared word the answer is taken from the context. *)
Example generate_answer_overlap :
  generate_answer (turn := turn) "What is the sky colour"
    "The sky is blue. Grass is green. The colour of the sky is deep." None
  = "The colour of the sky is deep. The sky is blue.".
Proof. vm_compute. reflexivity. Qed.

(** ** The public ask operation: claim C1 *)

Section AskProperties.

Context {vec : Type}.
Variable encode : list string -> outcome (list vec).
Variable cosine : vec -> vec -> Z.
Variable mean : list Z -> Z.
Variable round3 : Z -> Z.
Variable is_available : bool.
Variable chat_with_llm :
  string -> string -> string -> list turn -> outcome string.
Variable json_loads : string -> option json.

Abbreviation store := (gmap string (session vec)).

(** The local path: an answer is stored as a turn at the end of the
    session's log, in the same step. *)
Lemma answer_from_session_appends (sessions sessions' : store)
    (session_id question now : string) (s : session vec) (r : answered) :
  sessions !! session_id = Some s ->
  answer_from_session encode cosine mean round3 sessions session_id
                      question now = (Success r, sessions') ->
  sessions' !! session_id
  = Some (append_turn s (Turn question (answer_text r) now)).
Proof.
  intros Hs. unfold answer_from_session. rewrite Hs.
  destruct (retrieve encode cosine mean round3 s question) as [r'|msg];
    intros [= <- <-]. apply lookup_insert_eq.
Qed.

(** The remote path: whatever the model answers, the handler returns the
    store it was given; no turn is appended. *)
Lemma ask_question_llm_store (sessions : store) (request : Request.t)
    (now_answer now : string) :
  Request.use_llm request = true -> is_available = true ->
  (ask_question encode cosine mean round3 is_available chat_with_llm
                json_loads sessions request now_answer now).2 = sessions.
Proof.
  intros Hu Ha. unfold ask_question. rewrite Hu, Ha. simpl.
  destruct (sessions !! Request.session_id request) as [s|]; [|reflexivity].
  destruct (llm_path chat_with_llm json_loads s request); reflexivity.
Qed.

End AskProperties.

(** C1. A question answered through the remote path is answered with
    success, and the conversation log of the session is the one it had:
    the turn of this answer is not in it. *)
Lemma ask_question_llm_leaves_log :
  demo_ask true
  = (Respond (Response.Make true "s1" "What do dogs do?" "Dogs bark."
                (Some (Reported (Some "0.9")))
                (Some "Cats purr. Dogs bark.") "2024-01-01T11:00:01"),
     demo_store)
  /\ conversation_history <$> (demo_ask true).2 !! "s1"
     = Some [Turn "Who purrs here?" "Cats purr." "2024-01-01T10:00:00"].
Proof. split; vm_compute; reflexivity. Qed.

(** The same question through the local path: the turn is appended. *)
Example ask_question_local_appends :
  (demo_ask false).1
  = Respond (Response.Make true "s1" "What do dogs do?" "Dogs bark."
               (Some (Measured 1)) (Some "Cats purr. Dogs bark.")
               "2024-01-01T11:00:01")
  /\ conversation_history <$> (demo_ask false).2 !! "s1"
     = Some [Turn "Who purrs here?" "Cats purr." "2024-01-01T10:00:00";
             Turn "What do dogs do?" "Dogs bark." "2024-01-01T11:00:00"].
Proof. split; vm_compute; reflexivity. Qed.

(** * The rest of the chatbot *)

(** ** Reading the results of the monadic code *)

Lemma bind_ok {A B} (m : outcome A) (k : A -> outcome B) (b : B) :
  (a ← m; k a) = Ok b -> exists a, m = Ok a /\ k a = Ok b.
Proof. destruct m as [a|msg]; [eauto | discriminate]. Qed.

Lemma index_ok {A} (l : list A) (i : nat) (a : A) :
  index l i = Ok a -> l !! i = Some a.
Proof. unfold index. destruct (l !! i); [congruence | discriminate]. Qed.

Lemma traverse_index_ok {A} (l : list A) (idxs : list nat) (xs : list A) :
  traverse (index l) idxs = Ok xs ->
  Forall2 (fun i x => l !! i = Some x) idxs xs.
Proof.
  revert xs. induction idxs as [|i idxs IH]; intros xs H; simpl in H.
  - injection H as <-. constructor.
  - apply bind_ok in H as (x & Hx & H).
    apply bind_ok in H as (xs' & Hxs & H).
    injection H as <-. constructor; [apply index_ok, Hx | apply IH, Hxs].
Qed.

Lemma traverse_index_in {A} (l : list A) (idxs : list nat) (xs : list A) :
  traverse (index l) idxs = Ok xs ->
  length xs = length idxs /\ (forall x, x ∈ xs -> x ∈ l).
Proof.
  intros H. apply traverse_index_ok in H. split.
  - symmetry. exact (Forall2_length _ _ _ H).
  - intros x Hx. induction H as [|i y idxs xs Hy _ IH].
    + apply elem_of_nil in Hx. destruct Hx.
    + apply elem_of_cons in Hx as [->|Hx]; [|exact (IH Hx)].
      exact (list_elem_of_lookup_2 _ _ _ Hy).
Qed.

Lemma cosine_similarity_row {vec : Type} (cosine : vec -> vec -> Z)
    (X Y : list vec) (matrix : list (list Z)) (row : list Z) :
  cosine_similarity cosine X Y = Ok matrix -> index matrix 0 = Ok row ->
  length row = length Y.
Proof.
  unfold cosine_similarity. destruct (is_nil X || is_nil Y); [discriminate|].
  intros [= <-] H. apply index_ok in H.
  destruct X as [|x X]; [discriminate|]. injection H as <-.
  apply length_map.
Qed.

Lemma top_indices_length (similarities : list Z) (top_k : Z) :
  1 <= top_k ->
  Py.len (top_indices similarities top_k)
  = Z.min top_k (Py.len similarities).
Proof.
  intros Hk. unfold top_indices, Py.slice_last, Py.len.
  destruct (0 <? top_k) eqn:E; [|apply Z.ltb_ge in E; lia].
  rewrite length_reverse, length_drop, argsort_length. lia.
Qed.

(** ** Deleting, reading and listing sessions *)

Section StoreRest.

Context {vec : Type}.
Variable encode : list string -> outcome (list vec).
Variable cosine : vec -> vec -> Z.
Variable mean : list Z -> Z.
Variable round3 : Z -> Z.

Abbreviation store := (gmap string (session vec)).

(** X1. [delete_session] reports whether the id was in the store; after
    it the id is not in the store and every other id is as before; a
    second call reports [false] and changes nothing. *)
Theorem delete_session_removes (sessions : store) (session_id : string) :
  ((delete_session sessions session_id).1 = true
   <-> is_Some (sessions !! session_id))
  /\ (delete_session sessions session_id).2 !! session_id = None
  /\ (forall other, other <> session_id ->
        (delete_session sessions session_id).2 !! other = sessions !! other)
  /\ delete_session (delete_session sessions session_id).2 session_id
     = (false, (delete_session sessions session_id).2).
Proof.
  unfold delete_session.
  destruct (sessions !! session_id) as [s|] eqn:E; simpl.
  - rewrite lookup_delete_eq. split; [split; eauto|].
    split; [reflexivity|]. split; [|reflexivity].
    intros other Hne. apply lookup_delete_ne. congruence.
  - rewrite E. split; [split; [discriminate | intros [? ?]; discriminate]|].
    auto.
Qed.

(** The two outcomes of [answer_from_session]. *)
Lemma answer_from_session_store (sessions : store)
    (session_id question now : string) :
  (exists e,
      answer_from_session encode cosine mean round3 sessions session_id
                          question now = (Error e, sessions))
  \/ (exists s r,
        sessions !! session_id = Some s
        /\ answer_from_session encode cosine mean round3 sessions session_id
                               question now
           = (Success r,
              <[session_id :=
                  append_turn s (Turn question (answer_text r) now)]>
                sessions)).
Proof.
  unfold answer_from_session.
  destruct (sessions !! session_id) as [s|]; [|eauto].
  destruct (retrieve encode cosine mean round3 s question) as [r|msg];
    eauto 6.
Qed.

(** X2. A question is logged exactly when it is answered: on an error
    [answer_from_session] returns the store it was given, and on an
    answer the store differs only by the turn (question, answer, time)
    put at the end of the log of that session. *)
Theorem answer_from_session_logs (sessions : store)
    (session_id question now : string) :
  match answer_from_session encode cosine mean round3 sessions session_id
                            question now with
  | (Error _, sessions') => sessions' = sessions
  | (Success r, sessions') =>
      exists s, sessions !! session_id = Some s
                /\ retrieve encode cosine mean round3 s question = Ok r
                /\ sessions'
                   = <[session_id :=
                         append_turn s (Turn question (answer_text r) now)]>
                       sessions
  end.
Proof.
  unfold answer_from_session.
  destruct (sessions !! session_id) as [s|]; [|reflexivity].
  destruct (retrieve encode cosine mean round3 s question) as [r|msg] eqn:E;
    [|reflexivity].
  exists s. auto.
Qed.

(** X3. Whatever happens, [answer_from_session] creates and deletes no
    session, leaves every other session as it is, and keeps the
    document, chunks, embeddings, metadata and creation time of the
    session asked; the log it had is a prefix of the log it has. *)
Theorem answer_from_session_frame (sessions : store)
    (session_id question now other : string) :
  match sessions !! other,
        (answer_from_session encode cosine mean round3 sessions session_id
                             question now).2 !! other with
  | Some s, Some s' =>
      document_text s' = document_text s
      /\ chunks s' = chunks s
      /\ chunk_embeddings s' = chunk_embeddings s
      /\ metadata s' = metadata s
      /\ created_at s' = created_at s
      /\ conversation_history s `prefix_of` conversation_history s'
      /\ (other <> session_id -> s' = s)
  | None, None => True
  | _, _ => False
  end.
Proof.
  destruct (answer_from_session_store sessions session_id question now)
    as [[e ->]|(s & r & Hs & ->)]; simpl.
  - destruct (sessions !! other); [|exact I].
    repeat split; reflexivity.
  - destruct (decide (other = session_id)) as [->|Hne].
    + rewrite Hs, lookup_insert_eq. simpl.
      repeat split; try reflexivity; [|congruence].
      apply prefix_app_r. reflexivity.
    + rewrite lookup_insert_ne by congruence.
      destruct (sessions !! other); [|exact I].
      repeat split; reflexivity.
Qed.

(** X4. After an answer, [get_session_history] shows the log that was
    there with the new turn at its end and one more question counted;
    after an error it shows what it showed before. *)
Theorem answer_then_history (sessions : store)
    (session_id question now : string) :
  match answer_from_session encode cosine mean round3 sessions session_id
                            question now with
  | (Success r, sessions') =>
      exists h,
        get_session_history sessions session_id = Success h
        /\ get_session_history sessions' session_id
           = Success (History.Make
                        (History.history h
                         ++ [Turn question (answer_text r) now])
                        (History.document_summary h)
                        (History.created_at h)
                        (History.total_questions h + 1))
  | (Error _, sessions') =>
      get_session_history sessions' session_id
      = get_session_history sessions session_id
  end.
Proof.
  destruct (answer_from_session_store sessions session_id question now)
    as [[e ->]|(s & r & Hs & ->)]; [reflexivity|].
  unfold get_session_history.
  rewrite Hs, lookup_insert_eq. eexists. split; [reflexivity|].
  simpl. unfold Py.len. rewrite length_app. simpl.
  do 2 f_equal. lia.
Qed.

(** X5. The sources of an answer from a session are chunks of that
    session, three of them or as many as the session has embeddings if
    these are fewer; the context shown is the preview of their join, and
    the answer is generated from their join. *)
Theorem retrieve_sources (s : session vec) (question : string)
    (r : answered) :
  retrieve encode cosine mean round3 s question = Ok r ->
  exists relevant_chunks,
    sources r = Some relevant_chunks
    /\ Py.len relevant_chunks = Z.min 3 (Py.len (chunk_embeddings s))
    /\ (forall c, c ∈ relevant_chunks -> c ∈ chunks s)
    /\ relevant_context r = preview (Py.join " " relevant_chunks)
    /\ answer_text r
       = generate_answer question (Py.join " " relevant_chunks)
                         (Some (conversation_history s)).
Proof.
  unfold retrieve. intros H.
  apply bind_ok in H as (qe & _ & H).
  apply bind_ok in H as (matrix & Hm & H).
  apply bind_ok in H as (sims & Hrow & H).
  apply bind_ok in H as (relevant & Hrel & H).
  apply bind_ok in H as (scores & _ & H).
  injection H as <-. simpl. exists relevant.
  apply traverse_index_in in Hrel as [Hlen Hin].
  pose proof (cosine_similarity_row _ _ _ _ _ Hm Hrow) as Hsims.
  pose proof (top_indices_length sims 3 ltac:(lia)) as Htop.
  unfold Py.len in *. repeat split; auto. lia.
Qed.

End StoreRest.

Lemma retrieve_sources_witness :
  retrieve demo_encode (fun _ _ => 1) (fun _ => 1) (fun z => z)
           demo_session "What do dogs do?"
  = Ok (Answered "Dogs bark." (Measured 1) "Cats purr. Dogs bark."
                 (Some ["Cats purr. Dogs bark."]))
  /\ exists relevant_chunks,
      Some ["Cats purr. Dogs bark."] = Some relevant_chunks
      /\ Py.len relevant_chunks
         = Z.min 3 (Py.len (chunk_embeddings demo_session))
      /\ (forall c, c ∈ relevant_chunks -> c ∈ chunks demo_session)
      /\ "Cats purr. Dogs bark." = preview (Py.join " " relevant_chunks)
      /\ "Dogs bark."
         = generate_answer "What do dogs do?" (Py.join " " relevant_chunks)
                           (Some (conversation_history demo_session)).
Proof.
  split; [vm_compute; reflexivity|].
  apply (retrieve_sources demo_encode (fun _ _ => 1) (fun _ => 1)
           (fun z => z) demo_session "What do dogs do?"
           (Answered "Dogs bark." (Measured 1) "Cats purr. Dogs bark."
                     (Some ["Cats purr. Dogs bark."]))).
  vm_compute. reflexivity.
Defined.

Section LifeCycle.

Context {vec : Type}.
Variable encode : list string -> outcome (list vec).
Variable cosine : vec -> vec -> Z.
Variable mean : list Z -> Z.
Variable round3 : Z -> Z.

Abbreviation store := (gmap string (session vec)).

(** X6. When the encoder does not raise, [create_session] counts at
    least one chunk, as many as [chunk_document] gives, and the history
    of the new session is empty, with no question counted, the creation
    time and the first 200 characters of the document followed by three
    dots. *)
Theorem create_then_history (sessions : store)
    (session_id text : string) (meta : option (gmap string string))
    (now : string) (embeddings : list vec) :
  encode (chunk_document_default text) = Ok embeddings ->
  exists n,
    (create_session encode sessions session_id text meta now).1
    = Success (Created session_id n)
    /\ n = Py.len (chunk_document_default text)
    /\ 1 <= n
    /\ get_session_history
         (create_session encode sessions session_id text meta now).2
         session_id
       = Success (History.Make [] (Py.prefix 200 text +:+ "...") now 0).
Proof.
  intros E. unfold create_session. rewrite E. simpl.
  eexists. split; [reflexivity|]. split; [reflexivity|]. split.
  - pose proof (chunk_document_never_empty text 200 2) as Hne.
    unfold chunk_document_default, Py.len.
    destruct (chunk_document text 200 2); [congruence|]. simpl. lia.
  - unfold get_session_history. rewrite lookup_insert_eq. reflexivity.
Qed.

(** X7. [clear_history] on an id that is not in the store reports
    ["Session not found"] and returns the store; on an id that is in it,
    the history read afterwards is empty with no question counted, the
    preview and the creation time are those it had, and every other
    session is untouched. *)
Theorem clear_then_history (sessions : store) (session_id : string) :
  match sessions !! session_id with
  | None =>
      clear_history sessions session_id
      = (Error "Session not found", sessions)
  | Some s =>
      get_session_history (clear_history sessions session_id).2 session_id
      = Success (History.Make [] (Py.prefix 200 (document_text s) +:+ "...")
                              (created_at s) 0)
      /\ (forall other, other <> session_id ->
            (clear_history sessions session_id).2 !! other
            = sessions !! other)
  end.
Proof.
  unfold clear_history.
  destruct (sessions !! session_id) as [s|] eqn:E; [|reflexivity].
  simpl. split.
  - unfold get_session_history. rewrite lookup_insert_eq. reflexivity.
  - intros other Hne. apply lookup_insert_ne. congruence.
Qed.

(** X8. [answer_question] never reports ["Could not process document"]:
    the chunks of a document are never empty. It answers from the three
    best chunks when retrieval succeeds, and otherwise reports what
    retrieval raised. *)
Theorem answer_question_cases (document_text question : string)
    (history : option (list turn)) (now : string) :
  answer_question encode cosine mean round3 document_text question
                  history now
  <> Error "Could not process document"
  /\ answer_question encode cosine mean round3 document_text question
                     history now
     = match find_relevant_context encode cosine mean question
               (chunk_document_default document_text) 3 with
       | Ok found =>
           Success (Answered (generate_answer question found.1.1 history)
                             (Measured (round3 found.1.2))
                             (preview found.1.1) (Some found.2), now)
       | Raise msg => Error ("Failed to generate answer: " +:+ msg)
       end.
Proof.
  unfold answer_question, answer_question_body.
  pose proof (chunk_document_never_empty document_text 200 2) as Hne.
  unfold chunk_document_default.
  destruct (chunk_document document_text 200 2) as [|c cs]; [congruence|].
  simpl.
  destruct (find_relevant_context encode cosine mean question (c :: cs) 3)
    as [found|msg]; simpl; split; try reflexivity; discriminate.
Qed.

(** X9. What [find_relevant_context] returns for [top_k >= 1]: at most
    [top_k] chunks, each one a chunk it was given, the context being
    their join with blanks. *)
Theorem find_relevant_context_result (question : string)
    (document_chunks : list string) (top_k : Z)
    (context : string) (confidence : Z) (relevant_chunks : list string) :
  1 <= top_k ->
  find_relevant_context encode cosine mean question document_chunks top_k
  = Ok (context, confidence, relevant_chunks) ->
  context = Py.join " " relevant_chunks
  /\ Py.len relevant_chunks <= top_k
  /\ (forall c, c ∈ relevant_chunks -> c ∈ document_chunks).
Proof.
  intros Hk H. unfold find_relevant_context in H.
  apply bind_ok in H as (qe & _ & H).
  apply bind_ok in H as (ce & _ & H).
  apply bind_ok in H as (matrix & _ & H).
  apply bind_ok in H as (sims & _ & H).
  apply bind_ok in H as (relevant & Hrel & H).
  apply bind_ok in H as (scores & _ & H).
  injection H as <- <- <-.
  apply traverse_index_in in Hrel as [Hlen Hin].
  pose proof (top_indices_length sims top_k Hk) as Htop.
  unfold Py.len in *. repeat split; auto. lia.
Qed.

(** X10. [get_all_sessions] counts the sessions of the store and lists
    every session once: an entry is in the list exactly when it is the
    entry of a stored session under its id. *)
Theorem get_all_sessions_lists (sessions : store) :
  (get_all_sessions sessions).2 = Z.of_nat (size sessions)
  /\ Py.len (get_all_sessions sessions).1 = (get_all_sessions sessions).2
  /\ NoDup (map Info.session_id (get_all_sessions sessions).1)
  /\ (forall info,
        info ∈ (get_all_sessions sessions).1
        <-> exists s, sessions !! Info.session_id info = Some s
                      /\ info = session_info (Info.session_id info) s).
Proof.
  unfold get_all_sessions. simpl. split; [|split; [reflexivity|split]].
  - unfold Py.len. rewrite length_map, length_map_to_list. reflexivity.
  - rewrite map_map. simpl. apply (NoDup_fst_map_to_list sessions).
  - intros info. rewrite list_elem_of_fmap. split.
    + intros ([id s] & -> & Hin). apply elem_of_map_to_list in Hin.
      exists s. simpl. auto.
    + intros (s & Hs & Heq). exists (Info.session_id info, s).
      split; [exact Heq|]. apply elem_of_map_to_list. exact Hs.
Qed.

End LifeCycle.

(** ** The preview and the local answer *)

Lemma string_length_app (s1 s2 : string) :
  String.length (s1 +:+ s2) = (String.length s1 + String.length s2)%nat.
Proof. induction s1 as [|c s1 IH]; simpl; [reflexivity | rewrite IH; reflexivity]. Qed.

Lemma prefix_length (n : nat) (s : string) :
  String.length (Py.prefix n s) = Nat.min n (String.length s).
Proof.
  unfold Py.prefix. revert s. induction n as [|n IH]; intros s.
  - destruct s; reflexivity.
  - destruct s as [|c s]; [reflexivity|]. simpl. rewrite IH. reflexivity.
Qed.

(** X11. The context shown with an answer has at most 503 characters: a
    context of at most 500 characters is shown whole, a longer one is
    cut to 500 characters and three dots. *)
Theorem preview_bounded (context : string) :
  str_len (preview context) <= 503
  /\ (str_len context <= 500 -> preview context = context)
  /\ (500 < str_len context ->
      preview context = Py.prefix 500 context +:+ "..."
      /\ str_len (preview context) = 503).
Proof.
  unfold preview, str_len.
  destruct (500 <? String.length context)%nat eqn:E.
  - apply Nat.ltb_lt in E.
    rewrite string_length_app, prefix_length.
    change (String.length "...") with 3%nat.
    split; [lia|]. split; [lia|]. intros _. split; [reflexivity | lia].
  - apply Nat.ltb_ge in E. split; [lia|]. split; [reflexivity | lia].
Qed.

Lemma insert_desc_sorted {A} (key : A -> Z) (x : A) (l : list A) :
  StronglySorted (fun a b => key b <= key a) l ->
  StronglySorted (fun a b => key b <= key a) (Py.insert_desc key x l).
Proof.
  induction l as [|y l IH]; intros Hs; simpl.
  - constructor; constructor.
  - apply StronglySorted_cons in Hs as [Hy Hs].
    destruct (key y <=? key x) eqn:E.
    + apply Z.leb_le in E. constructor; [constructor; assumption|].
      constructor; [exact E|].
      rewrite Forall_forall in Hy |- *. intros z Hz.
      specialize (Hy z Hz). simpl in Hy. lia.
    + apply Z.leb_gt in E. constructor; [apply IH, Hs|].
      rewrite insert_desc_perm. constructor; [lia | exact Hy].
Qed.

Lemma sort_desc_sorted {A} (key : A -> Z) (l : list A) :
  StronglySorted (fun a b => key b <= key a) (Py.sort_desc key l).
Proof.
  induction l as [|x l IH]; simpl; [constructor|].
  apply insert_desc_sorted, IH.
Qed.

Lemma scored_sentences_elem (question context : string) (o : Z)
    (sentence : string) :
  (o, sentence) ∈ scored_sentences question context
  <-> sentence ∈ Py.split_sentences context
      /\ o = overlap (word_set question) sentence /\ 0 < o.
Proof.
  unfold scored_sentences. rewrite list_elem_of_omap. split.
  - intros (s & Hs & H).
    destruct (0 <? overlap (word_set question) s) eqn:E; [|discriminate].
    injection H as <- <-. apply Z.ltb_lt in E. auto.
  - intros (Hs & -> & Hpos). exists sentence. split; [exact Hs|].
    apply Z.ltb_lt in Hpos. rewrite Hpos. reflexivity.
Qed.

(** X12. When some sentence of the context shares a word with the
    question, the answer is one or two sentences of the context, joined
    by a blank and stripped; each of them shares a word with the
    question, and the first of them shares at least as many words as any
    sentence of the context. *)
Theorem generate_answer_picks {turn : Type} (question context : string)
    (history : option (list turn)) :
  (exists sentence, sentence ∈ Py.split_sentences context
                    /\ 0 < overlap (word_set question) sentence) ->
  exists best rest,
    generate_answer question context history
    = Py.strip (Py.join " " (best :: rest))
    /\ (length rest <= 1)%nat
    /\ (forall p, p ∈ best :: rest ->
          p ∈ Py.split_sentences context
          /\ 0 < overlap (word_set question) p)
    /\ (forall s, s ∈ Py.split_sentences context ->
          overlap (word_set question) s <= overlap (word_set question) best).
Proof.
  intros (s0 & Hs0 & Hpos0).
  assert ((overlap (word_set question) s0, s0)
            ∈ scored_sentences question context) as Hin0
    by (apply scored_sentences_elem; auto).
  unfold generate_answer.
  pose proof (sort_desc_perm fst (scored_sentences question context)) as Hperm.
  pose proof (sort_desc_sorted fst (scored_sentences question context)) as Hsort.
  destruct (scored_sentences question context) as [|sc scs] eqn:Esc;
    [apply elem_of_nil in Hin0; destruct Hin0|].
  simpl is_nil. cbv iota. rewrite <- Esc in *.
  destruct (Py.sort_desc fst (scored_sentences question context))
    as [|[o1 b] sorted] eqn:Esort.
  { rewrite Esc in Hperm. apply Permutation_nil_cons in Hperm. destruct Hperm. }
  assert (forall o s, (o, s) ∈ (o1, b) :: sorted ->
            s ∈ Py.split_sentences context
            /\ o = overlap (word_set question) s /\ 0 < o) as Hel.
  { intros o s H. rewrite Hperm in H. apply scored_sentences_elem, H. }
  apply StronglySorted_cons in Hsort as [Hmax _].
  exists b, (map snd (take 1 sorted)). split; [reflexivity|].
  split; [rewrite length_map, length_take; lia|]. split.
  - intros p Hp. apply elem_of_cons in Hp as [->|Hp].
    + destruct (Hel o1 b (list_elem_of_here _ _)) as (? & -> & ?). auto.
    + apply list_elem_of_fmap in Hp as ([o s] & -> & Hp).
      apply subseteq_take in Hp.
      destruct (Hel o s (list_elem_of_further _ _ _ Hp)) as (? & -> & ?).
      auto.
  - intros s Hs.
    destruct (Hel o1 b (list_elem_of_here _ _)) as (_ & Ho1 & Hpos1).
    rewrite <- Ho1.
    destruct (decide (0 < overlap (word_set question) s)) as [Hp|Hn]; [|lia].
    assert ((overlap (word_set question) s, s) ∈ (o1, b) :: sorted) as Hin
      by (rewrite Hperm; apply scored_sentences_elem; auto).
    apply elem_of_cons in Hin as [Heq|Hin]; [injection Heq as -> _; lia|].
    rewrite Forall_forall in Hmax. exact (Hmax _ Hin).
Qed.

Lemma generate_answer_picks_witness :
  (exists sentence,
      sentence ∈ Py.split_sentences "The sky is blue. Grass is green."
      /\ 0 < overlap (word_set "What is the sky colour") sentence)
  /\ exists best rest,
      generate_answer (turn := turn) "What is the sky colour"
        "The sky is blue. Grass is green." None
      = Py.strip (Py.join " " (best :: rest))
      /\ (length rest <= 1)%nat
      /\ (forall p, p ∈ best :: rest ->
            p ∈ Py.split_sentences "The sky is blue. Grass is green."
            /\ 0 < overlap (word_set "What is the sky colour") p)
      /\ (forall s, s ∈ Py.split_sentences "The sky is blue. Grass is green." ->
            overlap (word_set "What is the sky colour") s
            <= overlap (word_set "What is the sky colour") best).
Proof.
  assert (exists sentence,
             sentence ∈ Py.split_sentences "The sky is blue. Grass is green."
             /\ 0 < overlap (word_set "What is the sky colour") sentence) as H.
  { exists "The sky is blue.". split; [|vm_compute; reflexivity].
    change (Py.split_sentences "The sky is blue. Grass is green.")
      with ["The sky is blue."; "Grass is green."].
    apply list_elem_of_here. }
  split; [exact H|].
  exact (generate_answer_picks (turn := turn) "What is the sky colour"
           "The sky is blue. Grass is green." None H).
Defined.

(** ** More on the chunker and on the splitting of texts *)

Lemma word_count_nonneg (s : string) : 0 <= word_count s.
Proof. unfold word_count, Py.len. lia. Qed.

Lemma words_of_nonneg (l : list string) : 0 <= words_of l.
Proof.
  induction l as [|s l IH]; [reflexivity|].
  change (words_of (s :: l)) with (word_count s + words_of l).
  pose proof (word_count_nonneg s). lia.
Qed.

Lemma fold_without_closing (chunk_size ov : Z) (rest done : list string) :
  words_of (done ++ rest) <= chunk_size ->
  fold_left (Chunker.step chunk_size ov) rest
            (Chunker.State [] done (words_of done))
  = Chunker.State [] (done ++ rest) (words_of (done ++ rest)).
Proof.
  revert done. induction rest as [|s rest IH]; intros done H; simpl.
  - rewrite app_nil_r. reflexivity.
  - replace (done ++ s :: rest) with ((done ++ [s]) ++ rest) in *
      by (rewrite <- app_assoc; reflexivity).
    rewrite <- (IH (done ++ [s]) H). f_equal.
    unfold Chunker.step, Chunker.closes. simpl.
    rewrite words_of_app in H. rewrite words_of_app, words_of_single in *.
    pose proof (words_of_nonneg rest).
    destruct (chunk_size <? words_of done + word_count s) eqn:E;
      [apply Z.ltb_lt in E; lia|].
    reflexivity.
Qed.

(** X13. A document whose sentences have together at most [chunk_size]
    words is one chunk: its sentences joined by blanks. *)
Theorem chunk_document_one_chunk (text : string) (chunk_size ov : Z) :
  words_of (Py.split_sentences text) <= chunk_size ->
  chunk_document text chunk_size ov
  = [Py.join " " (Py.split_sentences text)].
Proof.
  intros H. unfold chunk_document, chunk_sentences, Chunker.init.
  change 0 with (words_of []).
  rewrite (fold_without_closing chunk_size ov (Py.split_sentences text) [] H).
  simpl. unfold Py.split_sentences.
  destruct (split_sentences_from_cons "" Py.AfterOther text) as (x & l & ->).
  reflexivity.
Qed.

Lemma chunk_document_one_chunk_witness :
  words_of (Py.split_sentences "One two. Three four five.") <= 200
  /\ chunk_document "One two. Three four five." 200 2
     = [Py.join " " (Py.split_sentences "One two. Three four five.")].
Proof.
  split; [vm_compute; discriminate|].
  apply (chunk_document_one_chunk "One two. Three four five." 200 2).
  vm_compute. discriminate.
Defined.

Lemma chunk_count_step (chunk_size ov : Z) (st : Chunker.state)
    (s : string) (n : nat) :
  (Chunker.current_chunk st = [] /\ Chunker.chunks st = []
   \/ Chunker.current_chunk st <> []
      /\ (length (Chunker.chunks st) + 1 <= n)%nat) ->
  (length (Chunker.chunks (Chunker.step chunk_size ov st s)) + 1 <= S n)%nat.
Proof.
  unfold Chunker.step, Chunker.closes.
  intros [[Hc Hk]|[Hc Hk]].
  - rewrite Hc, Hk, andb_false_r. simpl. lia.
  - destruct (_ && _); simpl; [rewrite length_app; simpl|]; lia.
Qed.

Lemma chunk_count_fold (chunk_size ov : Z) (sentences : list string)
    (st : Chunker.state) (n : nat) :
  (Chunker.current_chunk st = [] /\ Chunker.chunks st = []
   \/ Chunker.current_chunk st <> []
      /\ (length (Chunker.chunks st) + 1 <= n)%nat) ->
  sentences <> [] ->
  (length (Chunker.chunks
             (fold_left (Chunker.step chunk_size ov) sentences st)) + 1
   <= n + length sentences)%nat.
Proof.
  revert st n. induction sentences as [|s ss IH]; intros st n H Hne;
    [congruence|].
  simpl. pose proof (chunk_count_step chunk_size ov st s n H) as Hstep.
  destruct ss as [|s' ss]; [simpl; lia|].
  replace (n + S (length (s' :: ss)))%nat with (S n + length (s' :: ss))%nat
    by lia.
  apply IH; [|discriminate]. right. split; [|exact Hstep].
  apply chunk_step_current.
Qed.

(** X14. A document gives at least one chunk and at most as many chunks
    as it has sentences. *)
Theorem chunk_document_count (text : string) (chunk_size ov : Z) :
  (1 <= length (chunk_document text chunk_size ov)
   <= length (Py.split_sentences text))%nat.
Proof.
  split.
  - pose proof (chunk_document_never_empty text chunk_size ov).
    destruct (chunk_document text chunk_size ov); [congruence | simpl; lia].
  - unfold chunk_document, chunk_sentences, Py.split_sentences.
    destruct (split_sentences_from_cons "" Py.AfterOther text)
      as (x & l & ->).
    pose proof (chunk_count_fold chunk_size ov (x :: l) Chunker.init 0
                  (or_introl (conj eq_refl eq_refl)) ltac:(discriminate))
      as H.
    destruct (is_nil _); [lia|]. rewrite length_app. simpl. simpl in H. lia.
Qed.

Lemma append_snoc (cur : string) (c : ascii) (s : string) :
  Py.snoc cur c +:+ s = cur +:+ String c s.
Proof.
  unfold Py.snoc. induction cur as [|d cur IH]; [reflexivity|].
  change (String d ((cur +:+ String c "") +:+ s)
          = String d (cur +:+ String c s)).
  f_equal. exact IH.
Qed.

Lemma append_empty (s : string) : s +:+ "" = s.
Proof.
  induction s as [|c s IH]; [reflexivity|].
  change (String c (s +:+ "") = String c s). f_equal. exact IH.
Qed.

Lemma split_sentences_from_plain (cur s : string) :
  all_chars (fun c => negb (Py.is_terminal c)) s = true ->
  Py.split_sentences_from cur Py.AfterOther s = [cur +:+ s].
Proof.
  revert cur. induction s as [|c s IH]; intros cur H; simpl.
  - rewrite append_empty. reflexivity.
  - simpl in H. apply andb_true_iff in H as [Hc Hs].
    unfold Py.after. apply negb_true_iff in Hc. rewrite Hc.
    rewrite (IH _ Hs). rewrite append_snoc. reflexivity.
Qed.

(** X15. A text without [.], [!] and [?] is a single sentence, and its
    only chunk is the text itself, whatever its length and the
    [chunk_size]: nothing is split inside a sentence. *)
Theorem chunk_document_plain_text (text : string) (chunk_size ov : Z) :
  all_chars (fun c => negb (Py.is_terminal c)) text = true ->
  Py.split_sentences text = [text]
  /\ chunk_document text chunk_size ov = [text].
Proof.
  intros H.
  assert (Py.split_sentences text = [text]) as Hs
    by exact (split_sentences_from_plain "" text H).
  split; [exact Hs|].
  unfold chunk_document, chunk_sentences. rewrite Hs. simpl.
  unfold Chunker.step, Chunker.closes. simpl. rewrite andb_false_r.
  reflexivity.
Qed.

Lemma chunk_document_plain_text_witness :
  all_chars (fun c => negb (Py.is_terminal c)) "no full stop in here" = true
  /\ Py.split_sentences "no full stop in here" = ["no full stop in here"]
  /\ chunk_document "no full stop in here" 2 1 = ["no full stop in here"].
Proof.
  split; [reflexivity|].
  apply (chunk_document_plain_text "no full stop in here" 2 1). reflexivity.
Defined.

Lemma all_chars_snoc (p : ascii -> bool) (cur : string) (c : ascii) :
  all_chars p (Py.snoc cur c) = all_chars p cur && p c.
Proof.
  unfold Py.snoc. induction cur as [|d cur IH].
  - simpl. rewrite andb_true_r. reflexivity.
  - change (p d && all_chars p (cur +:+ String c "")
            = p d && all_chars p cur && p c).
    rewrite IH, andb_assoc. reflexivity.
Qed.

Lemma nonempty_snoc (cur : string) (c : ascii) :
  Py.nonempty (Py.snoc cur c) = true.
Proof. destruct cur; reflexivity. Qed.

Lemma split_ws_from_words (cur s : string) :
  all_chars (fun c => negb (Py.is_space c)) cur = true ->
  Forall (fun w => Py.nonempty w = true
                   /\ all_chars (fun c => negb (Py.is_space c)) w = true)
         (Py.split_ws_from cur s).
Proof.
  revert cur. induction s as [|c s IH]; intros cur Hcur; simpl.
  - destruct (Py.nonempty cur) eqn:E; repeat constructor; assumption.
  - destruct (Py.is_space c) eqn:Ec.
    + destruct (Py.nonempty cur) eqn:E.
      * constructor; [auto|]. apply IH. reflexivity.
      * apply IH. reflexivity.
    + apply IH. rewrite all_chars_snoc, Hcur, Ec. reflexivity.
Qed.

(** X16. The words of [s.split()] are not empty and hold no whitespace,
    so a word is its own only word. *)
Theorem split_ws_words (s : string) :
  Forall (fun w => Py.nonempty w = true
                   /\ all_chars (fun c => negb (Py.is_space c)) w = true
                   /\ Py.split_ws w = [w])
         (Py.split_ws s).
Proof.
  pose proof (split_ws_from_words "" s eq_refl) as H.
  unfold Py.split_ws. eapply Forall_impl; [exact H|].
  intros w [Hne Hw]. split; [exact Hne|]. split; [exact Hw|].
  clear H. unfold Py.split_ws.
  assert (forall cur rest,
             all_chars (fun c => negb (Py.is_space c)) rest = true ->
             Py.nonempty (cur +:+ rest) = true ->
             Py.split_ws_from cur rest = [cur +:+ rest]) as Hgen.
  { intros cur rest. revert cur.
    induction rest as [|c rest IH]; intros cur Hr Hn; simpl.
    - rewrite append_empty in *. rewrite Hn. reflexivity.
    - simpl in Hr. apply andb_true_iff in Hr as [Hc Hr].
      apply negb_true_iff in Hc. rewrite Hc.
      rewrite <- append_snoc. apply IH; [exact Hr|].
      rewrite append_snoc. destruct cur; reflexivity. }
  exact (Hgen "" w Hw Hne).
Qed.

Lemma ends_terminal_snoc (cur : string) (c : ascii) :
  ends_terminal (Py.snoc cur c) = Py.is_terminal c.
Proof.
  unfold Py.snoc. induction cur as [|d cur IH]; [reflexivity|].
  change (ends_terminal (String d (cur +:+ String c "")) = Py.is_terminal c).
  destruct (cur +:+ String c "") eqn:E; [|exact IH].
  destruct cur; discriminate E.
Qed.

Lemma split_sentences_from_ends (cur : string) (st : Py.scan) (s : string) :
  (st = Py.AfterTerminal -> ends_terminal cur = true) ->
  all_but_last (fun piece => ends_terminal piece = true)
               (Py.split_sentences_from cur st s).
Proof.
  revert cur st. induction s as [|c s IH]; intros cur st Hst; simpl;
    [exact I|].
  assert (forall cur', Py.after c = Py.AfterTerminal ->
                       ends_terminal (Py.snoc cur' c) = true) as Hafter.
  { intros cur' H. rewrite ends_terminal_snoc. unfold Py.after in H.
    destruct (Py.is_terminal c); [reflexivity | discriminate]. }
  destruct st.
  - destruct (Py.is_space c).
    + pose proof (IH "" Py.InSeparator ltac:(discriminate)) as H.
      destruct (split_sentences_from_cons "" Py.InSeparator s)
        as (x & l & E).
      rewrite E in *. split; [apply Hst; reflexivity | exact H].
    + apply IH, Hafter.
  - apply IH, Hafter.
  - destruct (Py.is_space c).
    + apply IH. discriminate.
    + apply IH. intros H.
      change (String c "") with (Py.snoc "" c). apply Hafter, H.
Qed.

Lemma starts_solid_snoc (cur : string) (c : ascii) :
  Py.nonempty cur = true ->
  starts_solid (Py.snoc cur c) = starts_solid cur.
Proof. destruct cur; [discriminate | reflexivity]. Qed.

Lemma after_not_separator (c : ascii) : Py.after c <> Py.InSeparator.
Proof. unfold Py.after. destruct (Py.is_terminal c); discriminate. Qed.

Lemma split_sentences_from_solid (cur : string) (st : Py.scan) (s : string) :
  (st = Py.InSeparator /\ cur = ""
   \/ st <> Py.InSeparator /\ Py.nonempty cur = true
      /\ starts_solid cur = true) ->
  Forall (fun piece => starts_solid piece = true)
         (Py.split_sentences_from cur st s).
Proof.
  revert cur st. induction s as [|c s IH]; intros cur st H; simpl.
  - constructor; [|constructor].
    destruct H as [[_ ->]|(_ & _ & H)]; [reflexivity | exact H].
  - assert (forall st', st' <> Py.InSeparator ->
              Py.nonempty cur = true -> starts_solid cur = true ->
              Forall (fun piece => starts_solid piece = true)
                (Py.split_sentences_from (Py.snoc cur c) (Py.after c) s))
      as Hgo.
    { intros st' _ Hn Hs. apply IH. right.
      split; [apply after_not_separator|].
      split; [apply nonempty_snoc|]. rewrite starts_solid_snoc; assumption. }
    destruct st.
    + destruct H as [[H _]|(_ & Hn & Hs)]; [discriminate|].
      destruct (Py.is_space c).
      * constructor; [exact Hs|]. apply IH. left. auto.
      * apply (Hgo Py.AfterTerminal); [discriminate | assumption..].
    + destruct H as [[H _]|(_ & Hn & Hs)]; [discriminate|].
      apply (Hgo Py.AfterOther); [discriminate | assumption..].
    + destruct (Py.is_space c) eqn:Ec.
      * apply IH. left. auto.
      * apply IH. right. split; [apply after_not_separator|].
        split; [reflexivity|]. simpl. rewrite Ec. reflexivity.
Qed.

Lemma split_sentences_from_tail_solid (cur : string) (st : Py.scan)
    (s : string) :
  st <> Py.InSeparator ->
  Forall (fun piece => starts_solid piece = true)
         (tail (Py.split_sentences_from cur st s)).
Proof.
  revert cur st. induction s as [|c s IH]; intros cur st H; simpl;
    [constructor|].
  destruct st; [|apply IH, after_not_separator | congruence].
  destruct (Py.is_space c); [|apply IH, after_not_separator].
  simpl. apply split_sentences_from_solid. left. auto.
Qed.

(** X17. Of the sentences of a text, every one but the last ends with
    [.], [!] or [?], and every one but the first starts with a character
    that is not whitespace (or is the empty piece after a final
    separator). *)
Theorem split_sentences_shape (text : string) :
  all_but_last (fun piece => ends_terminal piece = true)
               (Py.split_sentences text)
  /\ Forall (fun piece => starts_solid piece = true)
            (tail (Py.split_sentences text)).
Proof.
  split.
  - apply split_sentences_from_ends. discriminate.
  - apply split_sentences_from_tail_solid. discriminate.
Qed.

(** * The rest of the summarizer *)

(** ** The keyword classifier *)

Lemma first_match_cases (table : list (string * list string))
    (text_lower : string) :
  (first_match table text_lower = "unknown"
   /\ Forall (fun row => any_in row.2 text_lower = false) table)
  \/ (exists before row after,
        table = before ++ row :: after
        /\ Forall (fun r => any_in r.2 text_lower = false) before
        /\ any_in row.2 text_lower = true
        /\ first_match table text_lower = row.1).
Proof.
  induction table as [|[doc_type words] table IH]; simpl.
  - left. split; [reflexivity | constructor].
  - destruct (any_in words text_lower) eqn:E.
    + right. exists [], (doc_type, words), table.
      repeat split; [constructor | exact E].
    + destruct IH as [[H1 H2]|(before & row & after & -> & Hb & Hr & Hm)].
      * left. split; [exact H1|]. constructor; [exact E | exact H2].
      * right. exists ((doc_type, words) :: before), row, after.
        repeat split; [constructor; assumption | exact Hr | exact Hm].
Qed.

(** X18. The keyword classifier answers with the first category of its
    table one of whose keywords occurs in the text in lower case, and
    with ["unknown"] exactly when no keyword of any category occurs. *)
Theorem classify_document_by_keyword_first (text : string) :
  (classify_document_by_keyword text = "unknown"
   <-> Forall (fun row => any_in row.2 (Py.lower text) = false) keywords)
  /\ (classify_document_by_keyword text <> "unknown" ->
      exists before row after,
        keywords = before ++ row :: after
        /\ Forall (fun r => any_in r.2 (Py.lower text) = false) before
        /\ any_in row.2 (Py.lower text) = true
        /\ classify_document_by_keyword text = row.1).
Proof.
  unfold classify_document_by_keyword.
  assert (Forall (fun row : string * list string => row.1 <> "unknown")
                 keywords) as Hlabels
    by (repeat constructor; discriminate).
  destruct (first_match_cases keywords (Py.lower text))
    as [[H1 H2]|(before & row & after & Hk & Hb & Hr & Hm)].
  - split; [tauto | congruence].
  - split; [|intros _; eauto 8].
    rewrite Hm. split.
    + intros Hu. exfalso. rewrite Forall_forall in Hlabels.
      apply (Hlabels row); [|exact Hu].
      rewrite Hk. apply elem_of_app. right. apply list_elem_of_here.
    + intros Hall. exfalso. rewrite Hk in Hall.
      apply Forall_app in Hall as [_ Hall].
      apply Forall_cons in Hall as [Hall _]. congruence.
Qed.

Lemma classify_document_by_keyword_first_witness :
  classify_document_by_keyword "Rapid growth was REPORTED." <> "unknown"
  /\ classify_document_by_keyword "Rapid growth was REPORTED." = "news"
  /\ exists before row after,
      keywords = before ++ row :: after
      /\ Forall (fun r => any_in r.2 (Py.lower "Rapid growth was REPORTED.")
                          = false) before
      /\ any_in row.2 (Py.lower "Rapid growth was REPORTED.") = true
      /\ classify_document_by_keyword "Rapid growth was REPORTED." = row.1.
Proof.
  split; [vm_compute; discriminate|]. split; [reflexivity|].
  apply (classify_document_by_keyword_first "Rapid growth was REPORTED.").
  vm_compute. discriminate.
Defined.

(** ** Extracts are verbatim and in the order of the document *)

Lemma insert_asc_sorted_le {A} (key : A -> Z) (x : A) (l : list A) :
  StronglySorted (fun a b => key a <= key b) l ->
  StronglySorted (fun a b => key a <= key b) (Py.insert_asc key x l).
Proof.
  induction l as [|y l IH]; intros Hs; simpl.
  - constructor; constructor.
  - apply StronglySorted_cons in Hs as [Hy Hs].
    destruct (key x <=? key y) eqn:E.
    + apply Z.leb_le in E. constructor; [constructor; assumption|].
      constructor; [exact E|].
      rewrite Forall_forall in Hy |- *. intros z Hz.
      specialize (Hy z Hz). simpl in Hy. lia.
    + apply Z.leb_gt in E. constructor; [apply IH, Hs|].
      rewrite insert_asc_perm. constructor; [lia | exact Hy].
Qed.

Lemma sort_asc_sorted_le {A} (key : A -> Z) (l : list A) :
  StronglySorted (fun a b => key a <= key b) (Py.sort_asc key l).
Proof.
  induction l as [|x l IH]; simpl; [constructor|].
  apply insert_asc_sorted_le, IH.
Qed.

Lemma sorted_nodup_strict (l : list nat) :
  StronglySorted (fun a b => Z.of_nat a <= Z.of_nat b) l -> NoDup l ->
  StronglySorted lt l.
Proof.
  induction l as [|x l IH]; intros Hs Hn; [constructor|].
  apply StronglySorted_cons in Hs as [Hx Hs].
  apply NoDup_cons in Hn as [Hnx Hn].
  constructor; [apply IH; assumption|].
  rewrite Forall_forall in Hx |- *. intros y Hy.
  specialize (Hx y Hy). simpl in Hx.
  assert (x <> y) by (intros ->; contradiction). lia.
Qed.

Lemma traverse_index_shift {A} (x : A) (xs : list A) (idxs : list nat) :
  Forall (lt 0) idxs ->
  traverse (index (x :: xs)) idxs = traverse (index xs) (map pred idxs).
Proof.
  induction idxs as [|i idxs IH]; intros H; [reflexivity|].
  apply Forall_cons in H as [Hi H]. simpl. rewrite (IH H).
  destruct i as [|i]; [lia|]. reflexivity.
Qed.

Lemma sorted_pred (idxs : list nat) :
  Forall (lt 0) idxs -> StronglySorted lt idxs ->
  StronglySorted lt (map pred idxs).
Proof.
  induction idxs as [|i idxs IH]; intros Hp Hs; simpl; [constructor|].
  apply Forall_cons in Hp as [Hi Hp].
  apply StronglySorted_cons in Hs as [Hall Hs].
  constructor; [apply IH; assumption|].
  apply Forall_map. rewrite Forall_forall in Hall, Hp |- *.
  intros j Hj. specialize (Hall j Hj). specialize (Hp j Hj). simpl. lia.
Qed.

(** Picking the elements at increasing indices gives a sublist. *)
Lemma traverse_index_sublist {A} (xs : list A) (idxs : list nat)
    (picked : list A) :
  StronglySorted lt idxs ->
  traverse (index xs) idxs = Ok picked ->
  picked `sublist_of` xs.
Proof.
  revert idxs picked. induction xs as [|x xs IH]; intros idxs picked Hs H.
  - destruct idxs as [|i idxs]; [injection H as <-; constructor|].
    simpl in H. discriminate H.
  - destruct idxs as [|i idxs]; [injection H as <-; apply sublist_nil_l|].
    apply StronglySorted_cons in Hs as [Hall Hs].
    destruct i as [|i].
    + simpl in H. apply bind_ok in H as (rest & Hrest & H).
      injection H as <-.
      assert (Forall (lt 0) idxs) as Hpos by exact Hall.
      rewrite (traverse_index_shift x xs idxs Hpos) in Hrest.
      apply sublist_skip. apply (IH (map pred idxs)); [|exact Hrest].
      apply sorted_pred; assumption.
    + assert (Forall (lt 0) (S i :: idxs)) as Hpos.
      { constructor; [lia|]. eapply Forall_impl; [exact Hall|].
        simpl. intros; lia. }
      rewrite (traverse_index_shift x xs _ Hpos) in H.
      apply sublist_cons. apply (IH (map pred (S i :: idxs))); [|exact H].
      apply sorted_pred; [exact Hpos|].
      constructor; assumption.
Qed.

Lemma filter_sublist {A} (f : A -> bool) (l : list A) :
  List.filter f l `sublist_of` l.
Proof.
  induction l as [|x l IH]; simpl; [constructor|].
  destruct (f x); [apply sublist_skip | apply sublist_cons]; exact IH.
Qed.

Lemma sublist_of_map {A B} (f : A -> B) (l : list A) (k : list B) :
  k `sublist_of` map f l ->
  exists l0, l0 `sublist_of` l /\ k = map f l0.
Proof.
  revert k. induction l as [|x l IH]; intros k H; simpl in H.
  - apply sublist_nil_r in H as ->. exists []. split; [constructor|reflexivity].
  - inversion H as [|y k' l' Hk|y k' l' Hk]; subst.
    + destruct (IH _ Hk) as (l0 & Hl0 & ->).
      exists (x :: l0). split; [apply sublist_skip, Hl0 | reflexivity].
    + destruct (IH _ Hk) as (l0 & Hl0 & ->).
      exists l0. split; [apply sublist_cons, Hl0 | reflexivity].
Qed.

Lemma slice_to_sublist {A} (n : Z) (l : list A) :
  Py.slice_to n l `sublist_of` l.
Proof. unfold Py.slice_to. destruct (0 <=? n); apply sublist_take. Qed.

Lemma traverse_keyed (scores : list Z) (n : nat)
    (keyed : list (Z * nat)) :
  traverse (fun i => s ← index scores i; Ok (s, i)) (seq 0 n) = Ok keyed ->
  map snd keyed = seq 0 n.
Proof.
  generalize 0%nat. revert keyed.
  induction n as [|n IH]; intros keyed start H; simpl in H.
  - injection H as <-. reflexivity.
  - apply bind_ok in H as (p & Hp & H).
    apply bind_ok in H as (rest & Hrest & H). injection H as <-.
    apply bind_ok in Hp as (s & _ & Hp). injection Hp as <-.
    simpl. f_equal. exact (IH _ _ Hrest).
Qed.

Section Extractive.

Context {vec : Type}.
Variable sent_tokenize : string -> outcome (list string).
Variable encode : list string -> outcome (list vec).
Variable cosine : vec -> vec -> Z.
Variable pagerank : list (list Z) -> outcome (list Z).

Lemma ranked_sublist (cleaned_sentences : list string)
    (similarity_matrix : list (list Z)) (num_sentences : Z)
    (summary_text : string) :
  ranked pagerank cleaned_sentences similarity_matrix num_sentences
  = Ok summary_text ->
  exists picked, picked `sublist_of` cleaned_sentences
                 /\ summary_text = Py.join " " picked.
Proof.
  unfold ranked. intros H.
  apply bind_ok in H as (scores & _ & H).
  apply bind_ok in H as (keyed & Hkeyed & H).
  apply bind_ok in H as (picked & Hpicked & H).
  injection H as <-. exists picked. split; [|reflexivity].
  apply traverse_keyed in Hkeyed.
  eapply traverse_index_sublist; [|exact Hpicked].
  apply sorted_nodup_strict; [apply sort_asc_sorted_le|].
  rewrite sort_asc_perm.
  eapply sublist_NoDup; [|apply slice_to_sublist].
  rewrite sort_desc_perm, Hkeyed. apply NoDup_seq.
Qed.

(** X19. A summary of [extractive_summarize] is made of sentences of the
    text, each of them whole and in the order of the text, joined by
    blanks: they are a sublist of the tokenized text, taken as they are
    or each one stripped. *)
Theorem extractive_summarize_verbatim (text : string) (num_sentences : Z)
    (summary_text : string) :
  extractive_summarize sent_tokenize encode cosine pagerank
                       text num_sentences = Ok summary_text ->
  exists picked,
    picked `sublist_of` tokenize sent_tokenize text
    /\ (summary_text = Py.join " " picked
        \/ summary_text = Py.join " " (map Py.strip picked)).
Proof.
  unfold extractive_summarize.
  set (sentences := tokenize sent_tokenize text).
  set (long := List.filter (fun s => 5 <? word_count s) sentences).
  assert (forall k, k `sublist_of` map Py.strip long ->
            exists picked, picked `sublist_of` sentences
                           /\ Py.join " " k
                              = Py.join " " (map Py.strip picked)) as Hlong.
  { intros k Hk. apply sublist_of_map in Hk as (l0 & Hl0 & ->).
    exists l0. split; [|reflexivity].
    etransitivity; [exact Hl0 | apply filter_sublist]. }
  destruct (Py.len sentences <=? num_sentences).
  { intros [= <-]. exists sentences. split; [reflexivity | auto]. }
  destruct (Py.len (map Py.strip long) <? 2).
  { intros [= <-]. exists (Py.slice_to num_sentences sentences).
    split; [apply slice_to_sublist | auto]. }
  intros H. apply bind_ok in H as (embeddings & _ & H).
  apply bind_ok in H as (matrix & _ & H).
  destruct (ranked pagerank (map Py.strip long) matrix num_sentences)
    as [ranked_text|msg] eqn:E; injection H as <-.
  - apply ranked_sublist in E as (k & Hk & ->).
    destruct (Hlong k Hk) as (picked & Hp & ->). eauto.
  - destruct (Hlong _ (slice_to_sublist num_sentences (map Py.strip long)))
      as (picked & Hp & ->). eauto.
Qed.

End Extractive.

Lemma extractive_summarize_verbatim_witness :
  extractive_summarize demo_tokenize demo_encode (fun _ _ => 1)
                       demo_pagerank demo_text 2
  = Ok "Dogs bark at the mail carrier daily. Birds sing in the early morning hours."
  /\ exists picked,
      picked `sublist_of` tokenize demo_tokenize demo_text
      /\ ("Dogs bark at the mail carrier daily. Birds sing in the early morning hours."
          = Py.join " " picked
          \/ "Dogs bark at the mail carrier daily. Birds sing in the early morning hours."
             = Py.join " " (map Py.strip picked)).
Proof.
  split; [vm_compute; reflexivity|].
  apply (extractive_summarize_verbatim demo_tokenize demo_encode
           (fun _ _ => 1) demo_pagerank demo_text 2).
  vm_compute. reflexivity.
Defined.

(** ** The hybrid summarizer *)

Section Hybrid.

Context {vec token : Type}.
Variable sent_tokenize : string -> outcome (list string).
Variable encode : list string -> outcome (list vec).
Variable cosine : vec -> vec -> Z.
Variable pagerank : list (list Z) -> outcome (list Z).
Variable doc_classifier : option (string -> outcome string).
Variable tokenizer_encode : string -> outcome (list token).
Variable tokenizer_decode : list token -> outcome string.
Variable generate : string -> Z -> outcome string.

Abbreviation hybrid :=
  (hybrid_summarize sent_tokenize encode cosine pagerank doc_classifier
                    tokenizer_encode tokenizer_decode generate).
Abbreviation top_summarize :=
  (summarize sent_tokenize encode cosine pagerank doc_classifier
             tokenizer_encode tokenizer_decode generate).

(** A text of fewer than 20 words is refused before any model is
    consulted: the method raises ["Input text is too short..."], and the
    module-level function raises it behind ["Summarization failed: "]. *)
Theorem summarize_too_short (text profession purpose document_type : string)
    (num_sentences : Z) :
  word_count text < 20 ->
  hybrid text profession purpose num_sentences document_type
  = Raise "Input text is too short. Please provide at least 20 words."
  /\ top_summarize text num_sentences profession purpose document_type
     = Raise "Summarization failed: Input text is too short. Please provide at least 20 words.".
Proof.
  intros H. unfold summarize, hybrid_summarize.
  apply Z.ltb_lt in H. rewrite H. split; reflexivity.
Qed.

(** X21. Only the first 10000 characters of a text of 20 words or more
    are summarized: two such texts with the same first 10000 characters
    get the same result. *)
Theorem summarize_truncates (text1 text2 profession purpose
    document_type : string) (num_sentences : Z) :
  20 <= word_count text1 -> 20 <= word_count text2 ->
  Py.prefix (Z.to_nat 10000) text1 = Py.prefix (Z.to_nat 10000) text2 ->
  hybrid text1 profession purpose num_sentences document_type
  = hybrid text2 profession purpose num_sentences document_type.
Proof.
  intros H1 H2 Heq. unfold hybrid_summarize.
  apply Z.ltb_ge in H1, H2. rewrite H1, H2, Heq. reflexivity.
Qed.

(** X22. What a result of the method guarantees: the text had 20 words
    or more; at most 10000 characters were summarized; the extract is
    that of these characters and is not blank; the final summary is what
    the model generated for the prompt, stripped; the type is the
    lower-cased argument unless that is ["auto"]; and the lengths are
    those of the strings. *)
Theorem summarize_result (text profession purpose requested : string)
    (num_sentences : Z) (r : summary) :
  hybrid text profession purpose num_sentences requested = Ok r ->
  20 <= word_count text
  /\ original_length r <= 10000
  /\ extractive_summarize sent_tokenize encode cosine pagerank
       (Py.prefix (Z.to_nat 10000) text) num_sentences
     = Ok (extractive_summary r)
  /\ Py.nonempty (Py.strip (extractive_summary r)) = true
  /\ (exists generated,
        generate (context_prompt r) 150 = Ok generated
        /\ final_summary r = Py.strip generated)
  /\ (Py.lower requested <> "auto" ->
      document_type r = Py.lower requested)
  /\ extractive_length r = str_len (extractive_summary r)
  /\ final_length r = str_len (final_summary r).
Proof.
  unfold hybrid_summarize. intros H.
  destruct (word_count text <? 20) eqn:Hw; [discriminate|].
  apply Z.ltb_ge in Hw.
  apply bind_ok in H as (extract & Hex & H).
  destruct (Py.nonempty (Py.strip extract)) eqn:Hne; [|discriminate].
  simpl in H.
  apply bind_ok in H as (prompt & _ & H).
  apply bind_ok in H as (final & Hfinal & H).
  injection H as <-. simpl.
  unfold abstractive_summarize in Hfinal.
  apply bind_ok in Hfinal as (generated & Hgen & Hfinal).
  injection Hfinal as <-.
  split; [exact Hw|].
  split; [unfold str_len; rewrite prefix_length; lia|].
  split; [exact Hex|]. split; [exact Hne|].
  split; [eauto|]. split; [|auto].
  intros Hauto. apply String.eqb_neq in Hauto. rewrite Hauto. reflexivity.
Qed.

End Hybrid.

Lemma summarize_too_short_witness :
  word_count "too short" < 20
  /\ demo_hybrid "too short" "auto"
     = Raise "Input text is too short. Please provide at least 20 words."
  /\ summarize demo_tokenize demo_encode (fun _ _ => 1) demo_pagerank None
       demo_tokenizer_encode demo_tokenizer_decode demo_generate
       "too short" 2 "teacher" "overview" "auto"
     = Raise "Summarization failed: Input text is too short. Please provide at least 20 words.".
Proof.
  split; [reflexivity|].
  apply (summarize_too_short demo_tokenize demo_encode (fun _ _ => 1)
           demo_pagerank None demo_tokenizer_encode demo_tokenizer_decode
           demo_generate "too short" "teacher" "overview" "auto" 2).
  reflexivity.
Defined.

Lemma summarize_result_witness :
  demo_hybrid demo_text "Report"
  = Ok (Summary "report"
          "Dogs bark at the mail carrier daily. Birds sing in the early morning hours."
          "Summarize this report document for a teacher focusing on overview: Dogs bark at the mail carrier daily. Birds sing in the early morning hours."
          "Animals make sounds." 122 75 20)
  /\ 20 <= word_count demo_text.
Proof.
  split; [vm_compute; reflexivity|].
  apply (summarize_result demo_tokenize demo_encode (fun _ _ => 1)
           demo_pagerank None demo_tokenizer_encode demo_tokenizer_decode
           demo_generate demo_text "teacher" "overview" "Report" 2
           (Summary "report"
              "Dogs bark at the mail carrier daily. Birds sing in the early morning hours."
              "Summarize this report document for a teacher focusing on overview: Dogs bark at the mail carrier daily. Birds sing in the early morning hours."
              "Animals make sounds." 122 75 20)).
  vm_compute. reflexivity.
Defined.

Lemma summarize_truncates_witness :
  20 <= word_count demo_long
  /\ 20 <= word_count demo_longer
  /\ Py.prefix (Z.to_nat 10000) demo_long
     = Py.prefix (Z.to_nat 10000) demo_longer
  /\ demo_long <> demo_longer
  /\ demo_hybrid demo_long "auto" = demo_hybrid demo_longer "auto".
Proof.
  assert (20 <= word_count demo_long) as H1 by (vm_compute; discriminate).
  assert (20 <= word_count demo_longer) as H2 by (vm_compute; discriminate).
  assert (Py.prefix (Z.to_nat 10000) demo_long
          = Py.prefix (Z.to_nat 10000) demo_longer) as H3
    by (vm_compute; reflexivity).
  split; [exact H1|]. split; [exact H2|]. split; [exact H3|].
  split.
  - intros H. apply (f_equal String.length) in H. vm_compute in H.
    discriminate H.
  - exact (summarize_truncates demo_tokenize demo_encode (fun _ _ => 1)
             demo_pagerank None demo_tokenizer_encode demo_tokenizer_decode
             demo_generate demo_long demo_longer "teacher" "overview" "auto"
             2 H1 H2 H3).
Defined.

Lemma create_then_history_witness :
  demo_encode (chunk_document_default "Fish swim.") = Ok [tt]
  /\ exists n,
      (create_session demo_encode demo_store "s2" "Fish swim." None
                      "2024-01-02T09:00:00").1
      = Success (Created "s2" n)
      /\ n = Py.len (chunk_document_default "Fish swim.")
      /\ 1 <= n
      /\ get_session_history
           (create_session demo_encode demo_store "s2" "Fish swim." None
                           "2024-01-02T09:00:00").2 "s2"
         = Success (History.Make [] (Py.prefix 200 "Fish swim." +:+ "...")
                                 "2024-01-02T09:00:00" 0).
Proof.
  split; [reflexivity|].
  apply (create_then_history demo_encode demo_store "s2" "Fish swim." None
           "2024-01-02T09:00:00" [tt]).
  reflexivity.
Defined.

Lemma find_relevant_context_result_witness :
  1 <= 3
  /\ find_relevant_context demo_encode (fun _ _ => 1) (fun _ => 1)
       "What do dogs do?" ["Cats purr."; "Dogs bark."] 3
     = Ok ("Dogs bark. Cats purr.", 1, ["Dogs bark."; "Cats purr."])
  /\ "Dogs bark. Cats purr." = Py.join " " ["Dogs bark."; "Cats purr."]
  /\ Py.len ["Dogs bark."; "Cats purr."] <= 3
  /\ (forall c, c ∈ ["Dogs bark."; "Cats purr."] ->
                c ∈ ["Cats purr."; "Dogs bark."]).
Proof.
  split; [lia|]. split; [vm_compute; reflexivity|].
  apply (find_relevant_context_result demo_encode (fun _ _ => 1)
           (fun _ => 1) "What do dogs do?" ["Cats purr."; "Dogs bark."] 3
           "Dogs bark. Cats purr." 1 ["Dogs bark."; "Cats purr."]);
    [lia | vm_compute; reflexivity].
Defined.

(** * The other handlers *)

Section HandlerProperties.

Context {vec : Type}.
Variable encode : list string -> outcome (list vec).
Variable cosine : vec -> vec -> Z.
Variable mean : list Z -> Z.
Variable round3 : Z -> Z.
Variable is_available : bool.
Variable chat_with_llm :
  string -> string -> string -> list turn -> outcome string.
Variable json_loads : string -> option json.
Variable decode_utf8 : string -> outcome string.
Variable extract_text : string -> string -> outcome string.

Abbreviation store := (gmap string (session vec)).
Abbreviation ask :=
  (ask_question encode cosine mean round3 is_available chat_with_llm
                json_loads).

(** X23. A question about an id that is not in the store is answered
    with the status 404 on both paths, and the store is returned as it
    was. *)
Theorem ask_question_unknown_session (sessions : store)
    (request : Request.t) (now_answer now : string) :
  sessions !! Request.session_id request = None ->
  ask sessions request now_answer now
  = (HTTPException 404
       (if Request.use_llm request && is_available
        then "Session not found"
        else "Session not found. Please upload a document first."),
     sessions).
Proof.
  intros H. unfold ask_question, answer_from_session. rewrite H.
  destruct (Request.use_llm request && is_available); reflexivity.
Qed.

(** X24. Whatever the path and the outcome, [ask_question] creates and
    deletes no session, leaves every other session as it is, and keeps
    the document, chunks, embeddings, metadata and creation time of the
    session asked; the log it had is a prefix of the log it has. *)
Theorem ask_question_frame (sessions : store) (request : Request.t)
    (now_answer now other : string) :
  match sessions !! other,
        (ask sessions request now_answer now).2 !! other with
  | Some s, Some s' =>
      document_text s' = document_text s
      /\ chunks s' = chunks s
      /\ chunk_embeddings s' = chunk_embeddings s
      /\ metadata s' = metadata s
      /\ created_at s' = created_at s
      /\ conversation_history s `prefix_of` conversation_history s'
      /\ (other <> Request.session_id request -> s' = s)
  | None, None => True
  | _, _ => False
  end.
Proof.
  assert (match sessions !! other, sessions !! other with
          | Some s, Some s' =>
              document_text s' = document_text s
              /\ chunks s' = chunks s
              /\ chunk_embeddings s' = chunk_embeddings s
              /\ metadata s' = metadata s
              /\ created_at s' = created_at s
              /\ conversation_history s `prefix_of` conversation_history s'
              /\ (other <> Request.session_id request -> s' = s)
          | None, None => True
          | _, _ => False
          end) as Hsame.
  { destruct (sessions !! other); [|exact I]. repeat split; reflexivity. }
  unfold ask_question.
  destruct (Request.use_llm request && is_available).
  - destruct (sessions !! Request.session_id request) as [s|];
      [|exact Hsame].
    destruct (llm_path chat_with_llm json_loads s request); exact Hsame.
  - destruct (answer_from_session_store encode cosine mean round3 sessions
                (Request.session_id request) (Request.question request)
                now_answer) as [[e ->]|(s & r & Hs & ->)]; [exact Hsame|].
    simpl.
    destruct (decide (other = Request.session_id request)) as [->|Hne].
    + rewrite Hs, lookup_insert_eq. simpl.
      repeat split; try reflexivity; [|congruence].
      apply prefix_app_r. reflexivity.
    + rewrite lookup_insert_ne by congruence. exact Hsame.
Qed.

End HandlerProperties.

Lemma ask_question_unknown_session_witness :
  demo_store !! Request.session_id (Request.Make "nobody" "What do dogs do?"
                                                 "english" false) = None
  /\ ask_question demo_encode (fun _ _ => 1) (fun _ => 1) (fun z => z)
       true demo_chat_with_llm demo_json_loads demo_store
       (Request.Make "nobody" "What do dogs do?" "english" false)
       "2024-01-01T11:00:00" "2024-01-01T11:00:01"
     = (HTTPException 404
          "Session not found. Please upload a document first.", demo_store).
Proof.
  split; [reflexivity|].
  apply (ask_question_unknown_session demo_encode (fun _ _ => 1)
           (fun _ => 1) (fun z => z) true demo_chat_with_llm
           demo_json_loads demo_store
           (Request.Make "nobody" "What do dogs do?" "english" false)).
  reflexivity.
Defined.

Section FileUpload.

Context {vec : Type}.
Variable encode : list string -> outcome (list vec).
Variable decode_utf8 : string -> outcome string.
Variable extract_text : string -> string -> outcome string.

Abbreviation store := (gmap string (session vec)).
Abbreviation upload_file :=
  (upload_document_file_for_chat encode decode_utf8 extract_text).

(** X26. Uploading a file stores a session only together with a
    successful response: then the file has a supported extension, its
    text has 20 words or more, and the session holds this text, its
    chunks (at least one) and the names. Every other outcome has the
    status 400 or 500 and leaves the store as it was. *)
Theorem upload_file_outcomes (sessions : store) (file : Upload.t)
    (uuid now_session now : string) :
  match upload_file sessions file uuid now_session now with
  | (Respond response, sessions') =>
      exists text embeddings,
        supported (file_ext_of (or_else (Upload.filename file) "document"))
        = true
        /\ extracted_text_of decode_utf8 extract_text
             (file_ext_of (or_else (Upload.filename file) "document"))
             (Upload.file_content file) = Ok text
        /\ 20 <= word_count text
        /\ encode (chunk_document_default text) = Ok embeddings
        /\ sessions'
           = <[uuid :=
                 Session text (chunk_document_default text) embeddings
                   (<[ "document_name"
                       := or_else (Upload.document_name file)
                            (or_else (Upload.filename file) "document") ]>
                      {[ "filename"
                         := or_else (Upload.filename file) "document" ]})
                   [] now_session]> sessions
        /\ UploadResponse.session_id response = uuid
        /\ 1 <= UploadResponse.chunks_created response
  | (HTTPException status_code _, sessions') =>
      sessions' = sessions /\ (status_code = 400 \/ status_code = 500)
  end.
Proof.
  unfold upload_document_file_for_chat.
  destruct (supported _) eqn:Hsup; simpl; [|auto].
  destruct (extracted_text_of _ _ _ _) as [text|msg] eqn:Htext; [|auto].
  destruct (word_count text <? 20) eqn:Hw; [auto|].
  apply Z.ltb_ge in Hw. unfold create_session.
  destruct (encode (chunk_document_default text)) as [embeddings|msg] eqn:E;
    simpl; [|auto].
  exists text, embeddings. repeat split; auto.
  pose proof (chunk_document_never_empty text 200 2) as Hne.
  unfold chunk_document_default, Py.len.
  destruct (chunk_document text 200 2); [congruence|]. simpl. lia.
Qed.

(** X27. A file without a name, or with a name without a dot, is refused
    with the status 400 whatever it holds: its name is taken to be
    ["document"], which has no extension, and its content is not read. *)
Theorem upload_file_without_extension (sessions : store) (file : Upload.t)
    (uuid now_session now : string) :
  Py.contains "." (or_else (Upload.filename file) "document") = false ->
  upload_file sessions file uuid now_session now
  = (HTTPException 400 "Unsupported file type. Allowed: .pdf, .docx, .txt",
     sessions).
Proof.
  intros H. unfold upload_document_file_for_chat, file_ext_of.
  rewrite H. reflexivity.
Qed.

End FileUpload.

Lemma upload_file_without_extension_witness :
  Py.contains "." (or_else (Upload.filename
                              (Upload.Make None demo_text (Some "Animals")))
                           "document") = false
  /\ upload_document_file_for_chat demo_encode demo_decode demo_extract_text
       demo_store (Upload.Make None demo_text (Some "Animals"))
       "s2" "2024-01-02T09:00:00" "2024-01-02T09:00:01"
     = (HTTPException 400
          "Unsupported file type. Allowed: .pdf, .docx, .txt", demo_store).
Proof.
  split; [reflexivity|].
  apply (upload_file_without_extension demo_encode demo_decode
           demo_extract_text demo_store
           (Upload.Make None demo_text (Some "Animals"))).
  reflexivity.
Defined.

(** A text file with a name is accepted. *)
Example upload_file_accepted :
  (upload_document_file_for_chat demo_encode demo_decode demo_extract_text
     demo_store (Upload.Make (Some "animals.TXT") demo_text None)
     "s2" "2024-01-02T09:00:00" "2024-01-02T09:00:01").1
  = Respond (UploadResponse.Make true "s2" "animals.TXT" 122 1
               "File 'animals.TXT' uploaded successfully. Use session_id 's2' to ask questions."
               "2024-01-02T09:00:01").
Proof. vm_compute. reflexivity. Qed.

Section HistoryHandler.

Context {vec : Type}.
Variable json_loads : string -> option json.

Abbreviation store := (gmap string (session vec)).

Lemma conversation_of_ok (items : list turn) (conversation : list Entry.t) :
  conversation_of json_loads items = Ok conversation ->
  Py.len conversation = 2 * Py.len items
  /\ (forall (i : nat) (item : turn),
        items !! i = Some item ->
        exists shown,
          shown_answer json_loads (answer item) = Ok shown
          /\ conversation !! (2 * i)%nat
             = Some (Entry.Make "question" (question item) (timestamp item))
          /\ conversation !! (2 * i + 1)%nat
             = Some (Entry.Make "answer" shown (timestamp item))).
Proof.
  revert conversation.
  induction items as [|item items IH]; intros conversation H; simpl in H.
  - injection H as <-. split; [reflexivity|].
    intros i item' Hi. rewrite lookup_nil in Hi. discriminate Hi.
  - apply bind_ok in H as (messages & Hm & H).
    apply bind_ok in H as (rest & Hrest & H). injection H as <-.
    unfold messages_of in Hm. apply bind_ok in Hm as (shown & Hshown & Hm).
    injection Hm as <-.
    destruct (IH rest Hrest) as [Hlen Hat]. split.
    + unfold Py.len in *. simpl. lia.
    + intros [|i] item' Hi.
      * injection Hi as <-. exists shown. auto.
      * destruct (Hat i item' Hi) as (shown' & H1 & H2 & H3).
        exists shown'. split; [exact H1|].
        replace (2 * S i)%nat with (S (S (2 * i))) by lia.
        replace (S (S (2 * i)) + 1)%nat with (S (S (2 * i + 1))) by lia.
        auto.
Qed.

(** X28. [get_chat_history] answers 404 for an id that is not in the
    store. For a stored session, a response counts two messages for
    every turn: the question of the turn and then its answer, both with
    the time of the turn; an answer that is not written between braces
    is shown as it is stored; the name is that of the metadata (or
    ["Unknown"]) and the preview is the first 200 characters of the
    document and three dots. Any other outcome has the status 500. *)
Theorem get_chat_history_messages (sessions : store) (session_id : string) :
  match sessions !! session_id with
  | None =>
      get_chat_history json_loads sessions session_id
      = HTTPException 404 "Session not found"
  | Some s =>
      match get_chat_history json_loads sessions session_id with
      | Respond r =>
          HistoryResponse.total_messages r
          = 2 * Py.len (conversation_history s)
          /\ Py.len (HistoryResponse.conversation r)
             = HistoryResponse.total_messages r
          /\ HistoryResponse.document_name r
             = default "Unknown" (metadata s !! "document_name")
          /\ HistoryResponse.document_preview r
             = Py.prefix 200 (document_text s) +:+ "..."
          /\ (forall (i : nat) (item : turn),
                conversation_history s !! i = Some item ->
                HistoryResponse.conversation r !! (2 * i)%nat
                = Some (Entry.Make "question" (question item)
                                   (timestamp item))
                /\ exists shown,
                     HistoryResponse.conversation r !! (2 * i + 1)%nat
                     = Some (Entry.Make "answer" shown (timestamp item))
                     /\ (startswith "{" (Py.strip (answer item))
                         && endswith "}" (Py.strip (answer item)) = false ->
                         shown = answer item))
      | HTTPException status_code _ => status_code = 500
      end
  end.
Proof.
  unfold get_chat_history, get_session_history.
  destruct (sessions !! session_id) as [s|]; [|reflexivity].
  simpl.
  destruct (conversation_of json_loads (conversation_history s))
    as [conversation|msg] eqn:E; [|reflexivity].
  apply conversation_of_ok in E as [Hlen Hat]. simpl.
  repeat split; auto.
  - destruct (Hat i item H) as (shown & _ & Hq & _). exact Hq.
  - destruct (Hat i item H) as (shown & Hshown & _ & Ha).
    exists shown. split; [exact Ha|]. intros Hguard.
    unfold shown_answer in Hshown. rewrite Hguard in Hshown.
    congruence.
Qed.

(** X29. [delete_chat_session] answers 404 for an id that is not in the
    store and changes nothing; for a stored id it responds and the
    session is gone: its history is then answered with 404, a second
    deletion too, and every other session is as before. *)
Theorem delete_chat_session_gone (sessions : store)
    (session_id now : string) :
  match delete_chat_session sessions session_id now with
  | (Respond _, sessions') =>
      is_Some (sessions !! session_id)
      /\ sessions' = delete session_id sessions
      /\ get_chat_history json_loads sessions' session_id
         = HTTPException 404 "Session not found"
      /\ delete_chat_session sessions' session_id now
         = (HTTPException 404 "Session not found", sessions')
      /\ (forall other, other <> session_id ->
                        sessions' !! other = sessions !! other)
  | (HTTPException status_code detail, sessions') =>
      status_code = 404 /\ detail = "Session not found"
      /\ sessions !! session_id = None /\ sessions' = sessions
  end.
Proof.
  unfold delete_chat_session, delete_session.
  destruct (sessions !! session_id) as [s|] eqn:E; simpl; [|auto].
  split; [eauto|]. split; [reflexivity|].
  unfold get_chat_history, get_session_history.
  rewrite lookup_delete_eq. simpl.
  repeat split; try reflexivity.
  intros other Hne. apply lookup_delete_ne. congruence.
Qed.

End HistoryHandler.
